(** * The privileged (moderator) namespace of the debate server

    A shallow embedding of [src/namespace/privilegednamespace.js] and of the
    login middleware that guards it, together with the properties of the
    moderation control plane that the specification states about them.

    JavaScript values are a small inductive type, the two [Map]s of the
    namespace are finite maps, a [Set] is an insertion-ordered list without
    duplicates, and a handler is a function from the namespace state to an
    [outcome]: it finishes, throws, or is suspended at an [await] with a
    continuation that is resumed on a later state. *)

From stdpp Require Import gmap strings list fin_maps.

Open Scope string_scope.
Open Scope list_scope.

(** ** JavaScript values *)

Module JS.

(** The values a socket.io client can put in a message, plus function
    references (the acknowledgement callback).  A number is either an
    integer or some other number (a fraction, an infinity, or NaN). *)
#[warnings="-register-all"]
Inductive val :=
| VUndefined
| VNull
| VBool (b : bool)
| VInt (z : Z)
| VFloat (nan : bool)
| VStr (s : string)
| VArr (items : list val)
| VObj (fields : list (string * val))
| VFun (f : nat).

Inductive error :=
| TypeError (what : string)
| ReferenceError (ident : string)
| Rejection (reason : val).

(** [!v] is [negb (truthy v)]. *)
Definition truthy (v : val) : bool :=
  match v with
  | VUndefined | VNull => false
  | VBool b => b
  | VInt z => negb (z =? 0)%Z
  | VFloat nan => negb nan
  | VStr s => negb (String.eqb s "")
  | VArr _ | VObj _ | VFun _ => true
  end.

(** [v == null] *)
Definition nullish (v : val) : bool :=
  match v with
  | VUndefined | VNull => true
  | _ => false
  end.

Fixpoint own_property (fields : list (string * val)) (k : string) : val :=
  match fields with
  | [] => VUndefined
  | (k', v) :: rest => if String.eqb k' k then v else own_property rest k
  end.

(** [v.k] and the destructuring [let {k} = v]: reading a property of
    [undefined] or [null] throws a TypeError ([None]); a missing property
    reads as [undefined].  None of the property names the handlers read is
    defined on the prototypes of the primitive values. *)
Definition get (v : val) (k : string) : option val :=
  match v with
  | VUndefined | VNull => None
  | VObj fields => Some (own_property fields k)
  | _ => Some VUndefined
  end.

Fixpoint characters (s : string) : list val :=
  match s with
  | EmptyString => []
  | String c rest => VStr (String c EmptyString) :: characters rest
  end.

(** What [for (const x of v)] iterates over; [None] when [v] is not
    iterable.  A string iterates over its characters. *)
Definition iterate (v : val) : option (list val) :=
  match v with
  | VArr items => Some items
  | VStr s => Some (characters s)
  | _ => None
  end.

(** Identifier resolution in a lexical scope: the first identifier of
    [used] that is not bound, if any.  Evaluating it is a
    ReferenceError. *)
Definition unbound (scope used : list string) : option string :=
  List.find (fun x => negb (existsb (String.eqb x) scope)) used.

(** Whether the template literal [`${v}`] yields a string.  The string of
    an object is what its [toString] returns: an object of a message that
    has a property of that name of its own has no callable one (a message
    carries no functions), [valueOf] then gives back the object itself, and
    the conversion throws a TypeError.  The string of an array joins the
    strings of its elements, [null] and [undefined] counting as empty.
    Every other value has a string. *)
Fixpoint printable (v : val) : bool :=
  match v with
  | VArr items => forallb printable items
  | VObj fields => negb (existsb (fun kv => String.eqb (fst kv) "toString") fields)
  | _ => true
  end.

End JS.
Import JS.

(** ** Argument checks *)

Module TypeCheck.

(** [utils/typecheck.js] is not part of the sources at hand; the checks are
    the ones their names, their call sites and the command catalogue
    describe. *)

(** Modelled from the spec: [isFunction] of the missing [utils/typecheck.js];
    "the reply parameter is actually invocable". *)
Definition isFunction (v : val) : bool :=
  match v with VFun _ => true | _ => false end.

(** Modelled from the spec: [isInteger] of the missing [utils/typecheck.js];
    "numeric identifiers are integers". *)
Definition isInteger (v : val) : bool :=
  match v with VInt _ => true | _ => false end.

(** Modelled from the spec: [isBoolean] of the missing [utils/typecheck.js];
    the open-ended flag is a boolean. *)
Definition isBoolean (v : val) : bool :=
  match v with VBool _ => true | _ => false end.

(** A length is within an optional maximum. *)
Definition within (n : nat) (maxLength : option nat) : bool :=
  match maxLength with
  | Some m => (n <=? m)%nat
  | None => true
  end.

(** Modelled from the spec: [isString] of the missing [utils/typecheck.js];
    a string "within max length", the maximum being optional as at the call
    sites. *)
Definition isString (v : val) (maxLength : option nat) : bool :=
  match v with
  | VStr s => within (String.length s) maxLength
  | _ => false
  end.

(** Modelled from the spec: [isArrayOf] of the missing
    [utils/typecheck.js]; "an array of strings under max count": every
    element passes the check and the length does not exceed the maximum. *)
Definition isArrayOf (v : val) (check : val -> bool) (maxLength : option nat) : bool :=
  match v with
  | VArr items => forallb check items && within (length items) maxLength
  | _ => false
  end.

End TypeCheck.

(** ** Configuration *)

(** [DebateConfig] of [conf/config.js]: the bounds are deployment
    constants, so they are parameters of the development. *)
Record DebateConfig := {
  MAX_TITLE_LENGTH : nat;
  MAX_DESCRIPTION_LENGTH : nat;
  MAX_CLOSED_ANSWERS : nat
}.

(** ** Sockets *)

(** A socket of the privileged namespace.  [query_username] and
    [query_password] are [socket.handshake.query.username] and
    [.password]: a query parameter is a string or absent.  [username] and
    [userid] are the attributes the login middleware attaches. *)
Record Socket := {
  sock_id : string;
  query_username : option string;
  query_password : option string;
  username : option string;
  userid : val
}.

(** ** Suspension at [await] *)

Section Outcome.
Context {State Event Call : Type}.

(** The result of a promise or of a node-style callback. *)
Inductive answer :=
| Resolved (v : val)
| Rejected (reason : val).

(** What running a handler up to its next [await] gives.  [Pending s t c k]
    has left the state [s] and the events [t] behind and waits for the
    answer to [c]; other handlers may run before [k] is resumed, so [k]
    takes the state it finds then.  An exception that escapes an [async]
    function rejects its promise; both are [Thrown]. *)
Inductive outcome :=
| Done (s : State) (t : list Event)
| Thrown (s : State) (t : list Event) (e : error)
| Pending (s : State) (t : list Event) (c : Call) (k : answer -> State -> outcome).

(** Runs a handler to its end when nothing else is scheduled in between:
    every awaited call is answered by [oracle]. *)
Fixpoint settle (oracle : Call -> answer) (o : outcome) : State * list Event * option error :=
  match o with
  | Done s t => (s, t, None)
  | Thrown s t e => (s, t, Some e)
  | Pending s t c k =>
      let '(s', t', e) := settle oracle (k (oracle c) s) in (s', t ++ t', e)
  end.

End Outcome.
Arguments outcome : clear implicits.
Arguments answer : clear implicits.

(** ** The debate entity *)

(** A question as the new-question handler builds it:
    [new debate.Question(title, answers, isOpenQuestion)], whose [id] the
    handler replies with. *)
Record Question := {
  q_id : val;
  q_title : val;
  q_answers : val;
  q_isOpenQuestion : val
}.

(** Modelled from the spec: [debate/debate.js] is not part of the sources at
    hand, so the debate entity is the interface the namespace consumes:
    construction (the entity assigns its own process-unique identifier; the
    model hands the constructor the number of debates constructed before),
    the attributes the handlers read, the identifier a new question gets,
    the question and suggestion operations with the state of the entity they
    leave behind. *)
Class DebateEntity (Debate : Type) := {
  construct : string -> string -> Socket -> nat -> Debate;
  debateID : Debate -> Z;
  title : Debate -> string;
  description : Debate -> string;
  formattedQuestions : Debate -> list val;
  questionId : Debate -> val -> val -> val -> val;
  sendNewQuestion : Debate -> Question -> Debate;
  getApprovedSuggestions : Debate -> val;
  approveSuggestion : Debate -> val -> val * Debate;
  rejectSuggestion : Debate -> val -> val * Debate
}.

(** What the namespace relies on without saying so: the operations of a
    debate leave its identifier alone. *)
Class DebateIdentity (Debate : Type) `{!DebateEntity Debate} := {
  sendNewQuestion_debateID d q : debateID (sendNewQuestion d q) = debateID d;
  approveSuggestion_debateID d v : debateID (approveSuggestion d v).2 = debateID d;
  rejectSuggestion_debateID d v : debateID (rejectSuggestion d v).2 = debateID d
}.

(** ** The privileged namespace *)

Module PrivilegedNamespace.
Import TypeCheck.

(** What a handler does to the outside: [callback(arg)],
    [socket.on(name, handler)] and [debate.startSocketHandling()]. *)
Inductive event :=
| Reply (callback : val) (arg : val)
| On (sock : string) (name : string)
| StartSocketHandling (debate : Z).

(** A [Set] of debate identifiers in insertion order. *)
Definition set_add (x : Z) (s : list Z) : list Z :=
  if bool_decide (x ∈ s) then s else s ++ [x].

Definition set_delete (x : Z) (s : list Z) : list Z :=
  List.filter (fun y => negb (y =? x)%Z) s.

(** An entry of [this.users]. *)
Record User := {
  socket : Socket;
  tracked : list Z   (* the entry's activeDebates *)
}.

(** The identifiers the three log lines of the suggestion handlers
    interpolate, and what is bound where they stand: the imports of the
    module, then the parameters and locals of the handler. *)
Definition module_scope : list string :=
  ["logger"; "SocketConfig"; "DebateConfig"; "CustomNamespace"; "Debate";
   "dbManager"; "TypeCheck"; "PrivilegedNamespace"].

Definition banUser_scope : list string :=
  ["socket"; "banObj"; "callback"; "uuid"; "debateId"; "debate"] ++ module_scope.

Definition approveQuestion_scope : list string :=
  ["socket"; "approveObj"; "callback"; "suggestionId"; "debateId"; "debate"; "res"]
  ++ module_scope.

Definition rejectQuestion_scope : list string :=
  ["socket"; "rejectObj"; "callback"; "suggestionId"; "debateId"; "debate"; "res"]
  ++ module_scope.

Definition decision_log : list string := ["logger"; "socket"; "suggestionId"].

(** [x === true], [x === false] *)
Definition is_true (v : val) : bool :=
  match v with VBool true => true | _ => false end.

Definition is_false (v : val) : bool :=
  match v with VBool false => true | _ => false end.

(** The characters of a value that passed [isString]. *)
Definition string_of (v : val) : string :=
  match v with VStr s => s | _ => "" end.

Section Handlers.
Context {Debate : Type} `{!DebateEntity Debate}.
Variable conf : DebateConfig.

(** The instance fields [activeDebates] and [users], and the number of
    debates constructed so far (the state behind the identifiers the
    debate entity assigns). *)
Record Namespace := {
  activeDebates : gmap Z Debate;
  users : gmap (option string) User;
  constructed : nat
}.

(** The calls a handler awaits. *)
Inductive call :=
| GetDiscussionsAdmin (user : option string)
| SaveDiscussion (debate : Debate)
| SaveEndDiscussion (id : val)
| SendNewQuestion (debate : Z) (question : Question).

Definition result := outcome Namespace event call.

Definition with_activeDebates (f : gmap Z Debate -> gmap Z Debate) (st : Namespace) : Namespace :=
  {| activeDebates := f (activeDebates st); users := users st; constructed := constructed st |}.

Definition with_users (f : gmap (option string) User -> gmap (option string) User)
    (st : Namespace) : Namespace :=
  {| activeDebates := activeDebates st; users := f (users st); constructed := constructed st |}.

(** [v.k] inside a handler *)
Definition reading (st : Namespace) (o : option val) (k : val -> result) : result :=
  match o with
  | Some v => k v
  | None => Thrown st [] (TypeError "Cannot read properties of undefined or null")
  end.

(** A log line: its identifiers are resolved before anything is
    written. *)
Definition logging (st : Namespace) (scope used : list string) (k : result) : result :=
  match unbound scope used with
  | Some x => Thrown st [] (ReferenceError x)
  | None => k
  end.

(** A log line that writes out a value of the request: the value is
    converted to a string first, after the events [t] of the handler so
    far. *)
Definition interpolating (st : Namespace) (t : list event) (v : val) (k : result) : result :=
  if printable v then k
  else Thrown st t (TypeError "Cannot convert object to primitive value").

Definition initializeUsers (sock : Socket) (st : Namespace) : Namespace :=
  match users st !! username sock with
  | Some u =>
      with_users <[username sock := {| socket := sock; tracked := tracked u |}]> st
  | None =>
      with_users <[username sock := {| socket := sock; tracked := [] |}]> st
  end.

(** [this.activeDebates.get(id)]: a [Map] compares keys by value and
    without coercion, and the keys are the integer identifiers of the
    debates, so only an integer can be found. *)
Definition getActiveDebate (id : val) (st : Namespace) : option Debate :=
  match id with
  | VInt z => activeDebates st !! z
  | _ => None
  end.

(** [this.activeDebates.delete(id)] *)
Definition deleteActiveDebate (id : val) (st : Namespace) : Namespace :=
  match id with
  | VInt z => with_activeDebates (delete z) st
  | _ => st
  end.

(** The debate object registered under [id] has changed to [d]. *)
Definition mutateDebate (id : val) (d : Debate) (st : Namespace) : Namespace :=
  match id with
  | VInt z => with_activeDebates <[z := d]> st
  | _ => st
  end.

Definition summary (d : Debate) : val :=
  VObj [("debateId", VInt (debateID d)); ("title", VStr (title d));
        ("description", VStr (description d)); ("closed", VBool false)].

(** The first loop of [getDebates]; [None] when [d.debateID] is read of
    an [undefined] [d]. *)
Fixpoint activeSummaries (st : Namespace) (ids : list Z) : option (list val) :=
  match ids with
  | [] => Some []
  | debateId :: rest =>
      match activeDebates st !! debateId with
      | None => None
      | Some d => cons (summary d) <$> activeSummaries st rest
      end
  end.

Definition discussionSummary (discussion : val) : option val :=
  _id ← get discussion "_id";
  title ← get discussion "title";
  description ← get discussion "description";
  finishTime ← get discussion "finishTime";
  Some (VObj [("debateId", _id); ("title", title); ("description", description);
              ("closed", VBool (negb (nullish finishTime)))]).

Fixpoint discussionSummaries (discussions : list val) : option (list val) :=
  match discussions with
  | [] => Some []
  | discussion :: rest =>
      match discussionSummary discussion with
      | None => None
      | Some s => cons s <$> discussionSummaries rest
      end
  end.

Definition getDebates (sock : Socket) (callback : val) (st : Namespace) : result :=
  if negb (isFunction callback) then Done st [] else
  match users st !! username sock with
  | None => Thrown st [] (TypeError "Cannot read properties of undefined (reading 'activeDebates')")
  | Some u =>
      match activeSummaries st (tracked u) with
      | None => Thrown st [] (TypeError "Cannot read properties of undefined (reading 'debateID')")
      | Some debates =>
          Pending st [] (GetDiscussionsAdmin (username sock)) (fun a st' =>
            match a with
            | Rejected e => Thrown st' [] (Rejection e)
            | Resolved discussions =>
                match iterate discussions with
                | None => Thrown st' [] (TypeError "discussions is not iterable")
                | Some ds =>
                    match discussionSummaries ds with
                    | None => Thrown st' [] (TypeError "Cannot read properties of undefined or null")
                    | Some closed => Done st' [Reply callback (VArr (debates ++ closed))]
                    end
                end
            end)
      end
  end.

Definition getDebateQuestions (sock : Socket) (debateId callback : val) (st : Namespace) : result :=
  if negb (isFunction callback) then Done st [] else
  if negb (isInteger debateId) then Done st [Reply callback (VInt (-1))] else
  match getActiveDebate debateId st with
  | None => Done st [Reply callback (VInt (-1))]
  | Some debate => Done st [Reply callback (VArr (formattedQuestions debate))]
  end.

Definition getDebateSuggestions (sock : Socket) (debateId callback : val) (st : Namespace) : result :=
  if negb (isFunction callback) then Done st [] else
  if negb (isInteger debateId) then Done st [Reply callback (VInt (-1))] else
  match getActiveDebate debateId st with
  | None => Done st [Reply callback (VInt (-1))]
  | Some debate => Done st [Reply callback (getApprovedSuggestions debate)]
  end.

Definition newDebate (sock : Socket) (newDebateObj callback : val) (st : Namespace) : result :=
  if negb (isFunction callback) then Done st [] else
  reading st (get newDebateObj "title") (fun title =>
  reading st (get newDebateObj "description") (fun description =>
  if negb (isString title (Some (MAX_TITLE_LENGTH conf)))
     || negb (isString description (Some (MAX_DESCRIPTION_LENGTH conf)))
  then Done st [Reply callback (VInt (-1))] else
  let debate := construct (string_of title) (string_of description) sock (constructed st) in
  let st1 :=
    {| activeDebates := <[debateID debate := debate]> (activeDebates st);
       users := users st;
       constructed := S (constructed st) |} in
  match users st1 !! username sock with
  | None => Thrown st1 [] (TypeError "Cannot read properties of undefined (reading 'activeDebates')")
  | Some u =>
      let st2 :=
        with_users <[username sock :=
          {| socket := socket u; tracked := set_add (debateID debate) (tracked u) |}]> st1 in
      Pending st2 [] (SaveDiscussion debate) (fun _ st' =>
        Done st' [StartSocketHandling (debateID debate);
                  Reply callback (VInt (debateID debate))])
  end)).

(** The identifier is not checked before it is looked up, and where no
    debate is found the log line behind [callback(false)] writes it out as
    it came.  The other values the handler logs are its own: the debate it
    found, and the result of the database manager, whose strings are taken
    to exist. *)
Definition closeDebate (sock : Socket) (aIdDiscussion callback : val) (st : Namespace) : result :=
  if negb (isFunction callback) then Done st [] else
  match getActiveDebate aIdDiscussion st with
  | None =>
      interpolating st [Reply callback (VBool false)] aIdDiscussion
        (Done st [Reply callback (VBool false)])
  | Some debate =>
      let st1 := deleteActiveDebate aIdDiscussion st in
      match users st1 !! username sock with
      | None => Thrown st1 [] (TypeError "Cannot read properties of undefined (reading 'activeDebates')")
      | Some u =>
          let st2 :=
            with_users <[username sock :=
              {| socket := socket u; tracked := set_delete (debateID debate) (tracked u) |}]> st1 in
          Pending st2 [] (SaveEndDiscussion aIdDiscussion) (fun a st' =>
            match a with
            | Resolved update => Done st' [Reply callback update]
            | Rejected e => Thrown st' [] (Rejection e)
            end)
      end
  end.

Definition newQuestion (sock : Socket) (newQuestionObj callback : val) (st : Namespace) : result :=
  if negb (isFunction callback) then Done st [] else
  reading st (get newQuestionObj "debateId") (fun debateId =>
  reading st (get newQuestionObj "title") (fun title =>
  reading st (get newQuestionObj "answers") (fun answers =>
  reading st (get newQuestionObj "isOpenQuestion") (fun isOpenQuestion =>
  let '(isOpenQuestion, answers) :=
    if negb (isBoolean isOpenQuestion) then (VBool false, answers)
    else if is_true isOpenQuestion then (isOpenQuestion, VArr [])
    else (isOpenQuestion, answers) in
  if negb (isInteger debateId) || negb (isString title None)
     || negb (isArrayOf answers (fun a => isString a None) (Some (MAX_CLOSED_ANSWERS conf)))
  then Done st [Reply callback (VInt (-1))] else
  match getActiveDebate debateId st with
  | None => Done st [Reply callback (VInt (-1))]
  | Some debate =>
      let question :=
        {| q_id := questionId debate title answers isOpenQuestion;
           q_title := title;
           q_answers := answers;
           q_isOpenQuestion := isOpenQuestion |} in
      Pending (mutateDebate debateId (sendNewQuestion debate question) st) []
        (SendNewQuestion (debateID debate) question) (fun a st' =>
          match a with
          | Resolved _ => Done st' [Reply callback (q_id question)]
          | Rejected e => Thrown st' [] (Rejection e)
          end)
  end)))).

Definition banUser (sock : Socket) (banObj callback : val) (st : Namespace) : result :=
  if negb (isFunction callback) then Done st [] else
  reading st (get banObj "uuid") (fun uuid =>
  reading st (get banObj "debateId") (fun debateId =>
  if negb (isString uuid None) || negb (isInteger debateId)
  then Done st [Reply callback (VBool false)] else
  match getActiveDebate debateId st with
  | None => Done st [Reply callback (VBool false)]
  | Some debate =>
      logging st banUser_scope decision_log
        (Done st [Reply callback (VBool true)])
  end)).

Definition approveQuestion (sock : Socket) (approveObj callback : val) (st : Namespace) : result :=
  if negb (isFunction callback) then Done st [] else
  reading st (get approveObj "suggestionId") (fun suggestionId =>
  reading st (get approveObj "debateId") (fun debateId =>
  if negb (isInteger suggestionId) || negb (isInteger debateId)
  then Done st [Reply callback (VBool false)] else
  match getActiveDebate debateId st with
  | None => Done st [Reply callback (VBool false)]
  | Some debate =>
      let '(res, debate') := approveSuggestion debate suggestionId in
      let st1 := mutateDebate debateId debate' st in
      if is_false res then Done st1 [Reply callback (VBool false)] else
      logging st1 approveQuestion_scope decision_log
        (Done st1 [Reply callback (VBool true)])
  end)).

Definition rejectQuestion (sock : Socket) (rejectObj callback : val) (st : Namespace) : result :=
  if negb (isFunction callback) then Done st [] else
  reading st (get rejectObj "suggestionId") (fun suggestionId =>
  reading st (get rejectObj "debateId") (fun debateId =>
  if negb (isInteger suggestionId) || negb (isInteger debateId)
  then Done st [Reply callback (VBool false)] else
  match getActiveDebate debateId st with
  | None => Done st [Reply callback (VBool false)]
  | Some debate =>
      let '(res, debate') := rejectSuggestion debate suggestionId in
      let st1 := mutateDebate debateId debate' st in
      if is_false res then Done st1 [Reply callback (VBool false)] else
      logging st1 rejectQuestion_scope decision_log
        (Done st1 [Reply callback (VBool true)])
  end)).

(** The events the namespace listens to on a connected socket. *)
Inductive command :=
| GetDebates
| GetDebateQuestions
| GetDebateSuggestions
| NewDebate
| CloseDebate
| NewQuestion
| BanUser
| ApproveQuestion
| RejectQuestion.

Definition event_name (c : command) : string :=
  match c with
  | GetDebates => "getDebates"
  | GetDebateQuestions => "getDebateQuestions"
  | GetDebateSuggestions => "getDebateSuggestions"
  | NewDebate => "newDebate"
  | CloseDebate => "closeDebate"
  | NewQuestion => "newQuestion"
  | BanUser => "banUser"
  | ApproveQuestion => "approveQuestion"
  | RejectQuestion => "rejectQuestion"
  end.

(** The body of the 'connection' listener of [startSocketHandling]. *)
Definition startSocketHandling (sock : Socket) (st : Namespace) : Namespace * list event :=
  (initializeUsers sock st,
   On (sock_id sock) ∘ event_name <$>
     [GetDebates; GetDebateQuestions; GetDebateSuggestions; NewDebate; CloseDebate;
      NewQuestion; BanUser; ApproveQuestion; RejectQuestion]).

(** A message of a connected socket reaches the handler registered for
    its event: [getDebates] is called with the acknowledgement alone,
    the other handlers with a payload and the acknowledgement. *)
Definition handle (c : command) (sock : Socket) (payload callback : val) : Namespace -> result :=
  match c with
  | GetDebates => getDebates sock callback
  | GetDebateQuestions => getDebateQuestions sock payload callback
  | GetDebateSuggestions => getDebateSuggestions sock payload callback
  | NewDebate => newDebate sock payload callback
  | CloseDebate => closeDebate sock payload callback
  | NewQuestion => newQuestion sock payload callback
  | BanUser => banUser sock payload callback
  | ApproveQuestion => approveQuestion sock payload callback
  | RejectQuestion => rejectQuestion sock payload callback
  end.

End Handlers.
Arguments Namespace : clear implicits.
Arguments call : clear implicits.
Arguments result : clear implicits.

End PrivilegedNamespace.

(** ** The login middleware *)

Module LoginMiddleware.

(** [next()] and [next(new Error(message))] *)
Inductive event :=
| Next (err : option string).

(** The calls the middleware awaits: the two look-ups of the database
    manager and [bcrypt.compare]. *)
Inductive call :=
| GetAdminPassword (user : option string)
| Compare (password : string) (adminHash : val)
| GetAdminId (user : option string).

Definition result := outcome Socket event call.

Section Middleware.
(** [ErrorMessage.LOGIN_PASSWORD_INVALID] of [conf/config.js] *)
Variable LOGIN_PASSWORD_INVALID : string.

Definition middlewareFunction (sock : Socket) : result :=
  match query_password sock with
  | None => Done sock [Next (Some "No password specified")]
  | Some password =>
      if String.eqb password "" then Done sock [Next (Some "No password specified")] else
      let user := query_username sock in
      let sock1 :=
        {| sock_id := sock_id sock;
           query_username := query_username sock;
           query_password := None;
           username := user;
           userid := userid sock |} in
      Pending sock1 [] (GetAdminPassword user) (fun a sock2 =>
        match a with
        | Rejected e => Thrown sock2 [] (Rejection e)
        | Resolved adminHash =>
            if negb (truthy adminHash) then Done sock2 [Next (Some "Invalid username")] else
            Pending sock2 [] (Compare password adminHash) (fun a sock3 =>
              let res :=
                match a with
                | Rejected err => VBool false
                | Resolved res => res
                end in
              if PrivilegedNamespace.is_true res then
                Pending sock3 [] (GetAdminId user) (fun a sock4 =>
                  match a with
                  | Rejected e => Thrown sock4 [] (Rejection e)
                  | Resolved id =>
                      Done {| sock_id := sock_id sock4;
                              query_username := query_username sock4;
                              query_password := query_password sock4;
                              username := username sock4;
                              userid := id |} [Next None]
                  end)
              else Done sock3 [Next (Some LOGIN_PASSWORD_INVALID)])
        end)
  end.

End Middleware.

End LoginMiddleware.

(** ** A connection attempt *)

Module Server.
Import PrivilegedNamespace.

Section Connection.
Context {Debate : Type} `{!DebateEntity Debate}.
Variable LOGIN_PASSWORD_INVALID : string.

(** Modelled from the spec: the registration of the middleware on the
    namespace is outside the sources at hand.  The connection gate runs
    once per incoming connection, before any event routing is attached;
    the 'connection' listener runs only when the middleware has called
    [next()] without an error, on the socket as the middleware left
    it. *)
Definition connect (verifier : LoginMiddleware.call -> answer) (sock : Socket)
    (st : Namespace Debate) : Namespace Debate * list event :=
  match settle verifier (LoginMiddleware.middlewareFunction LOGIN_PASSWORD_INVALID sock) with
  | (sock', [LoginMiddleware.Next None], None) => startSocketHandling sock' st
  | _ => (st, [])
  end.

End Connection.

End Server.

(** ** A debate entity to run the handlers on *)

Module Plain.

(** The least debate entity: identifiers count up from zero, questions
    are kept in the order they were sent and numbered by position, and
    there are no audience suggestions, so none can be approved or
    rejected. *)
Record Debate := {
  d_id : Z;
  d_title : string;
  d_description : string;
  d_questions : list Question
}.

#[global] Instance entity : DebateEntity Debate := {|
  construct t d _ n := {| d_id := Z.of_nat n; d_title := t; d_description := d; d_questions := [] |};
  debateID := d_id;
  title := d_title;
  description := d_description;
  formattedQuestions d :=
    (fun q => VObj [("id", q_id q); ("title", q_title q); ("answers", q_answers q)])
      <$> d_questions d;
  questionId d _ _ _ := VInt (Z.of_nat (length (d_questions d)));
  sendNewQuestion d q :=
    {| d_id := d_id d; d_title := d_title d; d_description := d_description d;
       d_questions := d_questions d ++ [q] |};
  getApprovedSuggestions _ := VArr [];
  approveSuggestion d _ := (VBool false, d);
  rejectSuggestion d _ := (VBool false, d)
|}.

Definition conf : DebateConfig :=
  {| MAX_TITLE_LENGTH := 50; MAX_DESCRIPTION_LENGTH := 500; MAX_CLOSED_ANSWERS := 10 |}.

End Plain.

(** ** The command catalogue, in the words of the specification *)

Module Catalogue.
Import PrivilegedNamespace TypeCheck.

(** The commands that take a debate identifier. *)
Definition takes_debate_id (c : command) : bool :=
  match c with
  | GetDebates | NewDebate => false
  | _ => true
  end.

(** Where a request carries its debate identifier: it is the payload of
    list-questions, list-suggestions and close-debate, and the [debateId]
    field of the payload of the other commands.  A payload without fields
    ([null], [undefined]) supplies none. *)
Definition supplied_id (c : command) (payload : val) : option val :=
  match c with
  | GetDebateQuestions | GetDebateSuggestions | CloseDebate => Some payload
  | NewQuestion | BanUser | ApproveQuestion | RejectQuestion => get payload "debateId"
  | GetDebates | NewDebate => None
  end.

(** The failure reply of a command: [-1] where the success reply is an
    identifier or a list, [false] where it is a boolean.  list-debates has
    none. *)
Definition failure_sentinel (c : command) : option val :=
  match c with
  | GetDebates => None
  | GetDebateQuestions | GetDebateSuggestions | NewDebate | NewQuestion => Some (VInt (-1))
  | CloseDebate | BanUser | ApproveQuestion | RejectQuestion => Some (VBool false)
  end.

(** The field of a payload, [undefined] when there is none to read. *)
Definition field (payload : val) (k : string) : val :=
  default VUndefined (get payload k).

(** The "Validates" column: what a payload has to be for the command to
    go ahead.  close-debate validates nothing but the existence of the
    debate. *)
Definition valid_arguments (conf : DebateConfig) (c : command) (payload : val) : bool :=
  match c with
  | GetDebates | CloseDebate => true
  | GetDebateQuestions | GetDebateSuggestions => isInteger payload
  | NewDebate =>
      isString (field payload "title") (Some (MAX_TITLE_LENGTH conf))
      && isString (field payload "description") (Some (MAX_DESCRIPTION_LENGTH conf))
  | NewQuestion =>
      isInteger (field payload "debateId")
      && isString (field payload "title") None
      && (is_true (field payload "isOpenQuestion")
          || isArrayOf (field payload "answers") (fun a => isString a None)
               (Some (MAX_CLOSED_ANSWERS conf)))
  | BanUser =>
      isString (field payload "uuid") None && isInteger (field payload "debateId")
  | ApproveQuestion | RejectQuestion =>
      isInteger (field payload "suggestionId") && isInteger (field payload "debateId")
  end.

(** The commands whose payload is an object of fields. *)
Definition reads_fields (c : command) : bool :=
  match c with
  | NewDebate | NewQuestion | BanUser | ApproveQuestion | RejectQuestion => true
  | _ => false
  end.

(** The cross-entity invariant: an identifier is in the tracked set of
    some moderator exactly when it is in the debate registry. *)
Definition lockstep {Debate : Type} (st : Namespace Debate) : Prop :=
  ∀ z, (∃ name u, users st !! name = Some u ∧ z ∈ tracked u)
       ↔ is_Some (activeDebates st !! z).

(** A handshake carries no secret when the [password] parameter of its
    query is absent or empty. *)
Definition no_secret (sock : Socket) : bool :=
  match query_password sock with
  | None => true
  | Some password => String.eqb password ""
  end.

(** The ways a connection fails authentication: no secret; no stored
    hash for the name; a secret that does not compare equal to the stored
    hash (the comparison answers anything but [true], or fails). *)
Inductive authentication_fails (verifier : LoginMiddleware.call -> answer) (sock : Socket) : Prop :=
| missing_secret :
    no_secret sock = true ->
    authentication_fails verifier sock
| unknown_username password adminHash :
    query_password sock = Some password -> password ≠ "" ->
    verifier (LoginMiddleware.GetAdminPassword (query_username sock)) = Resolved adminHash ->
    truthy adminHash = false ->
    authentication_fails verifier sock
| wrong_secret password adminHash :
    query_password sock = Some password -> password ≠ "" ->
    verifier (LoginMiddleware.GetAdminPassword (query_username sock)) = Resolved adminHash ->
    truthy adminHash = true ->
    verifier (LoginMiddleware.Compare password adminHash) ≠ Resolved (VBool true) ->
    authentication_fails verifier sock.

End Catalogue.

(** ** Runs of the namespace *)

Module Run.
Import PrivilegedNamespace.

Section Reachable.
Context {Debate : Type} `{!DebateEntity Debate}.
Variable conf : DebateConfig.

Definition initial : Namespace Debate :=
  {| activeDebates := ∅; users := ∅; constructed := 0 |}.

(** A moderator is connected when the session registry holds an entry
    for the name of the socket: the handlers are attached to a socket
    right after [initializeUsers] has run on it. *)
Definition connected (sock : Socket) (st : Namespace Debate) : Prop :=
  is_Some (users st !! username sock).

(** The states the namespace goes through when the requests are served
    one after the other: sockets connect, and connected sockets send
    commands whose awaited calls are answered in some way. *)
Inductive reachable : Namespace Debate -> Prop :=
| reachable_initial : reachable initial
| reachable_connection sock st :
    reachable st -> reachable (startSocketHandling sock st).1
| reachable_command c sock payload callback answers st :
    reachable st -> connected sock st ->
    reachable (settle answers (handle conf c sock payload callback st)).1.1.

(** The ways a command changes the state: not at all, by an operation of a
    registered debate, by registering a new debate under a moderator, or by
    unregistering a debate and untracking its identifier from a
    moderator. *)
Inductive step (st : Namespace Debate) : Namespace Debate -> Prop :=
| step_same : step st st
| step_mutate z d d' :
    activeDebates st !! z = Some d -> debateID d' = debateID d ->
    step st (with_activeDebates <[z := d']> st)
| step_create debate name u :
    users st !! name = Some u ->
    step st (with_users <[name := {| socket := socket u;
                                     tracked := set_add (debateID debate) (tracked u) |}]>
               {| activeDebates := <[debateID debate := debate]> (activeDebates st);
                  users := users st; constructed := S (constructed st) |})
| step_close z d name u :
    activeDebates st !! z = Some d -> users st !! name = Some u ->
    step st (with_users <[name := {| socket := socket u;
                                     tracked := set_delete (debateID d) (tracked u) |}]>
               (with_activeDebates (delete z) st)).

(** A debate is registered under its own identifier. *)
Definition keyed (st : Namespace Debate) : Prop :=
  ∀ z d, activeDebates st !! z = Some d -> debateID d = z.

(** Some moderator tracks the identifier. *)
Definition tracked_somewhere (st : Namespace Debate) (z : Z) : Prop :=
  ∃ name u, users st !! name = Some u ∧ z ∈ tracked u.

End Reachable.

(** A socket as the login middleware hands it over. *)
Definition moderator (id name : string) : Socket :=
  {| sock_id := id; query_username := Some name; query_password := None;
     username := Some name; userid := VInt 1 |}.

Definition alice : Socket := moderator "socket-a" "alice".
Definition bob : Socket := moderator "socket-b" "bob".

(** A persistence layer that always succeeds. *)
Definition saved {Debate : Type} (c : call Debate) : answer := Resolved (VBool true).

Section Scenario.
Context {Debate : Type} `{!DebateEntity Debate}.
Variable conf : DebateConfig.
Variables heading text : string.

(** Two moderators connect and the first one creates a debate. *)
Definition created : Namespace Debate :=
  (settle saved
     (handle conf NewDebate alice
        (VObj [("title", VStr heading); ("description", VStr text)]) (VFun 1)
        (startSocketHandling bob (startSocketHandling alice initial).1).1)).1.1.

(** The identifier of that debate. *)
Definition opened : Z := debateID (construct heading text alice 0).

(** The second moderator closes the debate of the first. *)
Definition closed_by_other : Namespace Debate :=
  (settle saved (handle conf CloseDebate bob (VInt opened) (VFun 2) created)).1.1.

End Scenario.

End Run.

(** ** The requests the theorems are run on *)

Module Example.

Definition conf : DebateConfig := Plain.conf.

(** alice and bob are connected and alice has opened debate [0]. *)
Definition created : PrivilegedNamespace.Namespace Plain.Debate :=
  Run.created Plain.conf "T" "D".

(** bob has closed the debate of alice. *)
Definition stale : PrivilegedNamespace.Namespace Plain.Debate :=
  Run.closed_by_other Plain.conf "T" "D".

(** A handshake without a password, one with a password, and a credential
    store that knows the name and answers that the password does not
    match. *)
Definition anonymous : Socket :=
  {| sock_id := "socket-x"; query_username := Some "alice"; query_password := None;
     username := None; userid := VUndefined |}.

Definition intruder : Socket :=
  {| sock_id := "socket-y"; query_username := Some "alice"; query_password := Some "guess";
     username := None; userid := VUndefined |}.

Definition verifier (c : LoginMiddleware.call) : answer :=
  match c with
  | LoginMiddleware.GetAdminPassword _ => Resolved (VStr "$2b$10$hash")
  | LoginMiddleware.Compare _ _ => Resolved (VBool false)
  | LoginMiddleware.GetAdminId _ => Resolved (VInt 1)
  end.

End Example.

(** ** Reading a trace *)

Module Trace.

(** The replies in a trace: the reply function and its argument, in
    order. *)
Fixpoint replies (t : list PrivilegedNamespace.event) : list (val * val) :=
  match t with
  | [] => []
  | PrivilegedNamespace.Reply callback arg :: rest => (callback, arg) :: replies rest
  | _ :: rest => replies rest
  end.

End Trace.

(** ** More requests to run the handlers on *)

Module Sample.

(** A handshake with the right password and a credential store that
    accepts it. *)
Definition member : Socket :=
  {| sock_id := "socket-m"; query_username := Some "carol"; query_password := Some "secret";
     username := None; userid := VUndefined |}.

Definition accepting (c : LoginMiddleware.call) : answer :=
  match c with
  | LoginMiddleware.GetAdminPassword _ => Resolved (VStr "$2b$10$hash")
  | LoginMiddleware.Compare _ _ => Resolved (VBool true)
  | LoginMiddleware.GetAdminId _ => Resolved (VInt 3)
  end.

(** A persistence layer that is down, and one that has two discussions of
    the past on record, the second of them finished. *)
Definition down (c : PrivilegedNamespace.call Plain.Debate) : answer :=
  Rejected (VStr "connection lost").

Definition archive (c : PrivilegedNamespace.call Plain.Debate) : answer :=
  match c with
  | PrivilegedNamespace.GetDiscussionsAdmin _ =>
      Resolved (VArr [VObj [("_id", VInt 10); ("title", VStr "A"); ("description", VStr "a")];
                      VObj [("_id", VInt 11); ("title", VStr "B"); ("description", VStr "b");
                            ("finishTime", VStr "2020-05-01")]])
  | _ => Resolved (VBool true)
  end.

(** bob opens a second debate in the example state and closes it again;
    alice closes her own debate. *)
Definition second : PrivilegedNamespace.Namespace Plain.Debate :=
  (settle Run.saved
     (PrivilegedNamespace.newDebate Example.conf Run.bob
        (VObj [("title", VStr "U"); ("description", VStr "V")]) (VFun 3)
        Example.created)).1.1.

Definition second_closed : PrivilegedNamespace.Namespace Plain.Debate :=
  (settle Run.saved (PrivilegedNamespace.closeDebate Run.bob (VInt 1) (VFun 4) second)).1.1.

Definition closed_by_owner : PrivilegedNamespace.Namespace Plain.Debate :=
  (settle Run.saved
     (PrivilegedNamespace.closeDebate Run.alice (VInt 0) (VFun 3) Example.created)).1.1.

End Sample.

Import PrivilegedNamespace TypeCheck Catalogue.

(** * Properties *)

(** ** The session registry *)

Section Sessions.
Context {Debate : Type} `{!DebateEntity Debate}.
Implicit Types (st : Namespace Debate) (sock : Socket).

Lemma initializeUsers_entry sock st :
  users (initializeUsers sock st) !! username sock =
    Some {| socket := sock;
            tracked := from_option tracked [] (users st !! username sock) |}.
Proof.
  unfold initializeUsers.
  destruct (users st !! username sock) as [u|]; cbn; by rewrite lookup_insert_eq.
Qed.

Lemma initializeUsers_other sock st name :
  name ≠ username sock ->
  users (initializeUsers sock st) !! name = users st !! name.
Proof.
  intros Hne. unfold initializeUsers.
  destruct (users st !! username sock); cbn; by rewrite lookup_insert_ne.
Qed.

Lemma initializeUsers_activeDebates sock st :
  activeDebates (initializeUsers sock st) = activeDebates st.
Proof. unfold initializeUsers. by destruct (users st !! username sock). Qed.

Lemma initializeUsers_twice sock st :
  initializeUsers sock (initializeUsers sock st) = initializeUsers sock st.
Proof.
  unfold initializeUsers at 1. rewrite initializeUsers_entry.
  unfold initializeUsers, with_users.
  destruct (users st !! username sock) as [u|]; cbn; by rewrite insert_insert_eq.
Qed.

(** C6.  Initializing the session of a known moderator with a new socket
    replaces the socket of the entry and keeps its tracked set;
    initializing an unknown moderator creates an entry with an empty
    tracked set; the entries of the other moderators and the debate
    registry are left alone; and initializing again, with the same socket
    or with any other socket of that moderator, changes no tracked set. *)
Theorem initializeUsers_preserves_tracked sock st :
  (∀ u, users st !! username sock = Some u ->
        users (initializeUsers sock st) !! username sock
        = Some {| socket := sock; tracked := tracked u |})
  ∧ (users st !! username sock = None ->
        users (initializeUsers sock st) !! username sock
        = Some {| socket := sock; tracked := [] |})
  ∧ (∀ name, name ≠ username sock ->
        users (initializeUsers sock st) !! name = users st !! name)
  ∧ activeDebates (initializeUsers sock st) = activeDebates st
  ∧ initializeUsers sock (initializeUsers sock st) = initializeUsers sock st
  ∧ (∀ sock' name, username sock' = username sock ->
        tracked <$> users (initializeUsers sock' (initializeUsers sock st)) !! name
        = tracked <$> users (initializeUsers sock st) !! name).
Proof.
  repeat split.
  - intros u Hu. by rewrite initializeUsers_entry, Hu.
  - intros Hu. by rewrite initializeUsers_entry, Hu.
  - apply initializeUsers_other.
  - apply initializeUsers_activeDebates.
  - apply initializeUsers_twice.
  - intros sock' name Hsame.
    destruct (decide (name = username sock')) as [->|Hne].
    + rewrite initializeUsers_entry. rewrite Hsame, initializeUsers_entry. done.
    + by rewrite initializeUsers_other.
Qed.

End Sessions.

(** ** Replies of the event router *)

Section Replies.
Context {Debate : Type} `{!DebateEntity Debate}.
Variable conf : DebateConfig.
Implicit Types (st : Namespace Debate) (sock : Socket) (payload id : val).

Lemma get_field payload k : nullish payload = false -> get payload k = Some (field payload k).
Proof. by destruct payload. Qed.

Lemma get_nullish payload k : nullish payload = true -> get payload k = None.
Proof. by destruct payload. Qed.

Lemma get_Some_nullish payload k v : get payload k = Some v -> nullish payload = false.
Proof. by destruct payload. Qed.

Lemma getActiveDebate_absent id st :
  (∀ z, id = VInt z -> activeDebates st !! z = None) -> getActiveDebate id st = None.
Proof. destruct id; cbn; auto. Qed.

Lemma getActiveDebate_present id st d :
  getActiveDebate id st = Some d -> ∃ z, id = VInt z ∧ activeDebates st !! z = Some d.
Proof. destruct id; cbn; try done. eauto. Qed.

(** The log line shared by the suggestion handlers resolves where
    [suggestionId] was destructured from the payload, and only there. *)
Lemma decision_log_resolves :
  unbound approveQuestion_scope decision_log = None
  ∧ unbound rejectQuestion_scope decision_log = None
  ∧ unbound banUser_scope decision_log = Some "suggestionId".
Proof. by vm_compute. Qed.

Lemma banUser_found sock banObj uuid z d cb st :
  get banObj "uuid" = Some (VStr uuid) ->
  get banObj "debateId" = Some (VInt z) ->
  activeDebates st !! z = Some d ->
  banUser sock banObj (VFun cb) st = Thrown st [] (ReferenceError "suggestionId").
Proof.
  intros Hu Hd Hz. unfold banUser. cbn [isFunction negb].
  rewrite Hu, Hd. cbn. by rewrite Hz.
Qed.

(** C1.  A ban-user request with a string uuid and the identifier of a
    registered debate gets no reply: the handler passes the lookup and
    then throws a ReferenceError at the log line that names
    [suggestionId], which is not bound in [banUser]; [callback(true)]
    behind it is never reached. *)
Theorem banUser_registered_debate_throws sock uuid (z : Z) (d : Debate)
    (m : gmap Z Debate) us n cb :
  banUser sock (VObj [("uuid", VStr uuid); ("debateId", VInt z)]) (VFun cb)
    {| activeDebates := <[z := d]> m; users := us; constructed := n |}
  = Thrown {| activeDebates := <[z := d]> m; users := us; constructed := n |} []
      (ReferenceError "suggestionId").
Proof. apply (banUser_found _ _ uuid z d); [done | done |]. cbn. apply lookup_insert_eq. Qed.

Ltac absent H :=
  rewrite (getActiveDebate_absent _ _ H); try done.

(** A command that takes a debate identifier, called with a reply function
    and an identifier that is not in the debate registry, replies once, with
    its failure sentinel ([-1] for list-questions, list-suggestions and
    new-question, [false] for close-debate, ban-user, approve-suggestion and
    reject-suggestion), throws nothing, awaits nothing and leaves the state
    as it was; for close-debate, which logs the identifier unchecked, when
    the identifier has a string. *)
Lemma unknown_debate_gets_sentinel c sock payload id cb st sentinel :
  takes_debate_id c = true ->
  supplied_id c payload = Some id ->
  (∀ z, id = VInt z -> activeDebates st !! z = None) ->
  (c = CloseDebate -> printable id = true) ->
  failure_sentinel c = Some sentinel ->
  handle conf c sock payload (VFun cb) st = Done st [Reply (VFun cb) sentinel].
Proof.
  intros Htakes Hid Habsent Hprintable Hs.
  destruct c; try discriminate Htakes; cbn in Hid, Hs; simplify_eq; cbn [handle].
  - unfold getDebateQuestions. cbn [isFunction negb].
    destruct (isInteger id); cbn; [by absent Habsent | done].
  - unfold getDebateSuggestions. cbn [isFunction negb].
    destruct (isInteger id); cbn; [by absent Habsent | done].
  - unfold closeDebate, interpolating. cbn [isFunction negb]. absent Habsent.
    by rewrite Hprintable.
  - unfold newQuestion. cbn [isFunction negb].
    pose proof (get_Some_nullish _ _ _ Hid) as Hn.
    rewrite !(get_field _ _ Hn) in *. simplify_eq. cbn [reading].
    destruct (if negb (isBoolean (field payload "isOpenQuestion")) then _ else _)
      as [isOpenQuestion answers].
    destruct (_ || _); [done | by absent Habsent].
  - unfold banUser. cbn [isFunction negb].
    pose proof (get_Some_nullish _ _ _ Hid) as Hn.
    rewrite !(get_field _ _ Hn) in *. simplify_eq. cbn [reading].
    destruct (_ || _); [done | by absent Habsent].
  - unfold approveQuestion. cbn [isFunction negb].
    pose proof (get_Some_nullish _ _ _ Hid) as Hn.
    rewrite !(get_field _ _ Hn) in *. simplify_eq. cbn [reading].
    destruct (_ || _); [done | by absent Habsent].
  - unfold rejectQuestion. cbn [isFunction negb].
    pose proof (get_Some_nullish _ _ _ Hid) as Hn.
    rewrite !(get_field _ _ Hn) in *. simplify_eq. cbn [reading].
    destruct (_ || _); [done | by absent Habsent].
Qed.

(** An identifier without a string is no integer, so it is never
    registered: close-debate replies [false] and then throws at its log
    line. *)
Lemma closeDebate_unprintable sock id cb st :
  printable id = false ->
  closeDebate sock id (VFun cb) st
  = Thrown st [Reply (VFun cb) (VBool false)]
      (TypeError "Cannot convert object to primitive value").
Proof.
  intros Hid. unfold closeDebate, interpolating. cbn [isFunction negb].
  rewrite Hid. by destruct id.
Qed.

(** C3.  close-debate called with a reply function and the identifier
    [{"toString": 5}], which is in no debate registry, replies [false] and
    then throws: the log line behind [callback(false)] writes the identifier
    out, and this one has no string.  The other six commands that take a
    debate identifier check that it is an integer before they log it. *)
Theorem closeDebate_unknown_id_replies_then_throws sock cb st :
  takes_debate_id CloseDebate = true
  ∧ supplied_id CloseDebate (VObj [("toString", VInt 5)]) = Some (VObj [("toString", VInt 5)])
  ∧ getActiveDebate (VObj [("toString", VInt 5)]) st = None
  ∧ failure_sentinel CloseDebate = Some (VBool false)
  ∧ handle conf CloseDebate sock (VObj [("toString", VInt 5)]) (VFun cb) st
    = Thrown st [Reply (VFun cb) (VBool false)]
        (TypeError "Cannot convert object to primitive value").
Proof.
  do 4 (split; [reflexivity |]). by apply closeDebate_unprintable.
Qed.

(** A payload that has fields to read and fails the validation of its
    command is answered with the failure sentinel, in one synchronous
    step that leaves the state as it was. *)
Lemma invalid_arguments_get_sentinel c sock payload cb st sentinel :
  nullish payload = false ->
  valid_arguments conf c payload = false ->
  failure_sentinel c = Some sentinel ->
  handle conf c sock payload (VFun cb) st = Done st [Reply (VFun cb) sentinel].
Proof.
  intros Hn Hv Hs.
  destruct c; try discriminate Hv; cbn in Hv, Hs; simplify_eq; cbn [handle].
  - unfold getDebateQuestions. cbn [isFunction negb]. by rewrite Hv.
  - unfold getDebateSuggestions. cbn [isFunction negb]. by rewrite Hv.
  - unfold newDebate. cbn [isFunction negb].
    rewrite !(get_field _ _ Hn). cbn [reading].
    apply andb_false_iff in Hv as [-> | ->]; cbn; [done | by rewrite orb_true_r].
  - unfold newQuestion. cbn [isFunction negb].
    rewrite !(get_field _ _ Hn). cbn [reading].
    destruct (field payload "isOpenQuestion") as [| |[|]| | | | | |]; cbn in Hv |- *;
      destruct (isInteger _), (isString _ None); cbn in Hv |- *; try done;
      by rewrite Hv.
  - unfold banUser. cbn [isFunction negb].
    rewrite !(get_field _ _ Hn). cbn [reading].
    apply andb_false_iff in Hv as [-> | ->]; cbn; [done | by rewrite orb_true_r].
  - unfold approveQuestion. cbn [isFunction negb].
    rewrite !(get_field _ _ Hn). cbn [reading].
    apply andb_false_iff in Hv as [-> | ->]; cbn; [done | by rewrite orb_true_r].
  - unfold rejectQuestion. cbn [isFunction negb].
    rewrite !(get_field _ _ Hn). cbn [reading].
    apply andb_false_iff in Hv as [-> | ->]; cbn; [done | by rewrite orb_true_r].
Qed.

Lemma nullish_payload_throws c sock payload cb st :
  reads_fields c = true ->
  nullish payload = true ->
  handle conf c sock payload (VFun cb) st
  = Thrown st [] (TypeError "Cannot read properties of undefined or null").
Proof.
  intros Hc Hn.
  destruct c; try discriminate Hc; cbn [handle];
    unfold newDebate, newQuestion, banUser, approveQuestion, rejectQuestion;
    cbn [isFunction negb]; by rewrite (get_nullish _ _ Hn).
Qed.

(** C4.  A create-debate request whose payload is [null] fails the
    validation of the command, whose failure sentinel is [-1]; the handler
    touches no state, yet it does not reply: reading [title] of the
    payload throws a TypeError before the arguments are checked. *)
Theorem newDebate_null_payload_throws sock cb st :
  valid_arguments conf NewDebate VNull = false
  ∧ failure_sentinel NewDebate = Some (VInt (-1))
  ∧ handle conf NewDebate sock VNull (VFun cb) st
    = Thrown st [] (TypeError "Cannot read properties of undefined or null").
Proof. repeat split. Qed.

(** C5.  A new-question request with [isOpenQuestion] equal to [true], an
    integer [debateId] of a registered debate and a string [title]
    constructs a question whose answer list is empty, whatever the
    [answers] field holds; the question is sent to the debate and its
    identifier is the reply. *)
Theorem newQuestion_open_has_no_answers sock payload cb st z d t :
  get payload "isOpenQuestion" = Some (VBool true) ->
  get payload "debateId" = Some (VInt z) ->
  get payload "title" = Some (VStr t) ->
  activeDebates st !! z = Some d ->
  ∃ question st1 k,
    newQuestion conf sock payload (VFun cb) st
    = Pending st1 [] (SendNewQuestion (debateID d) question) k
    ∧ q_answers question = VArr []
    ∧ q_title question = VStr t
    ∧ q_isOpenQuestion question = VBool true
    ∧ ∀ v st', k (Resolved v) st' = Done st' [Reply (VFun cb) (q_id question)].
Proof.
  intros Hopen Hid Htitle Hd.
  pose proof (get_Some_nullish _ _ _ Hid) as Hn.
  unfold newQuestion. cbn [isFunction negb].
  rewrite Hid, Htitle, Hopen, (get_field _ "answers" Hn). cbn. rewrite Hd.
  eexists _, _, _. split; [reflexivity |]. by cbn.
Qed.

(** The synchronous part of a valid create-debate request. *)
Lemma newDebate_valid sock payload cb st t d u :
  get payload "title" = Some (VStr t) ->
  get payload "description" = Some (VStr d) ->
  (String.length t <= MAX_TITLE_LENGTH conf)%nat ->
  (String.length d <= MAX_DESCRIPTION_LENGTH conf)%nat ->
  users st !! username sock = Some u ->
  let debate := construct t d sock (constructed st) in
  newDebate conf sock payload (VFun cb) st
  = Pending
      (with_users <[username sock :=
         {| socket := socket u; tracked := set_add (debateID debate) (tracked u) |}]>
         {| activeDebates := <[debateID debate := debate]> (activeDebates st);
            users := users st; constructed := S (constructed st) |})
      [] (SaveDiscussion debate)
      (fun _ st' => Done st' [StartSocketHandling (debateID debate);
                              Reply (VFun cb) (VInt (debateID debate))]).
Proof.
  intros Ht Hd Hlt Hld Hu debate.
  unfold newDebate. cbn [isFunction negb]. rewrite Ht, Hd. cbn.
  apply Nat.leb_le in Hlt, Hld. rewrite Hlt, Hld. cbn. by rewrite Hu.
Qed.

(** The synchronous part of a close-debate request for a registered
    debate. *)
Lemma closeDebate_found sock z cb st d u :
  activeDebates st !! z = Some d ->
  users st !! username sock = Some u ->
  closeDebate sock (VInt z) (VFun cb) st
  = Pending
      (with_users <[username sock :=
         {| socket := socket u; tracked := set_delete (debateID d) (tracked u) |}]>
         (with_activeDebates (delete z) st))
      [] (SaveEndDiscussion (VInt z))
      (fun a st' =>
         match a with
         | Resolved update => Done st' [Reply (VFun cb) update]
         | Rejected e => Thrown st' [] (Rejection e)
         end).
Proof.
  intros Hd Hu. unfold closeDebate. cbn [isFunction negb]. cbn. rewrite Hd. cbn.
  by rewrite Hu.
Qed.

Lemma elem_of_set_add x s : x ∈ set_add x s.
Proof.
  unfold set_add. case_bool_decide; [done |]. apply elem_of_app. right. by left.
Qed.

Lemma set_add_nil x : set_add x [] = [x].
Proof. unfold set_add. case_bool_decide as Hx; [by apply elem_of_nil in Hx | done]. Qed.

Lemma elem_of_set_delete x y s : x ∈ set_delete y s ↔ x ∈ s ∧ x ≠ y.
Proof.
  unfold set_delete. rewrite !list_elem_of_In, filter_In, negb_true_iff, Z.eqb_neq. done.
Qed.

(** C7.  A create-debate request with a string title and a string
    description within their maximum lengths, sent by a moderator with a
    session, registers the new debate and tracks it under the caller
    before the persistence call is awaited; whatever the persistence call
    answers (true, false, any other value, or a rejection), and whatever
    state the handler resumes in, it then starts the debate and replies
    with the identifier of the debate, changing nothing more. *)
Theorem newDebate_registers_before_persisting sock payload cb st t d u :
  get payload "title" = Some (VStr t) ->
  get payload "description" = Some (VStr d) ->
  (String.length t <= MAX_TITLE_LENGTH conf)%nat ->
  (String.length d <= MAX_DESCRIPTION_LENGTH conf)%nat ->
  users st !! username sock = Some u ->
  let debate := construct t d sock (constructed st) in
  ∃ st1 k,
    newDebate conf sock payload (VFun cb) st = Pending st1 [] (SaveDiscussion debate) k
    ∧ activeDebates st1 !! debateID debate = Some debate
    ∧ (∃ u1, users st1 !! username sock = Some u1 ∧ debateID debate ∈ tracked u1)
    ∧ (∀ a st', k a st'
         = Done st' [StartSocketHandling (debateID debate);
                     Reply (VFun cb) (VInt (debateID debate))])
    ∧ (∀ persistence,
         settle persistence (newDebate conf sock payload (VFun cb) st)
         = (st1, [StartSocketHandling (debateID debate);
                  Reply (VFun cb) (VInt (debateID debate))], None)).
Proof.
  intros Ht Hd Hlt Hld Hu debate.
  pose proof (newDebate_valid sock payload cb st t d u Ht Hd Hlt Hld Hu) as Heq.
  eexists _, _. split; [exact Heq |]. repeat split.
  - cbn. apply lookup_insert_eq.
  - eexists. split; [cbn; apply lookup_insert_eq |]. cbn. apply elem_of_set_add.
  - intros persistence. by rewrite Heq.
Qed.

(** C8.  A close-debate request for a registered debate, sent by a
    moderator with a session, awaits the persistence call that saves the
    close marker and replies with the value that call resolves to, as it
    is. *)
Theorem closeDebate_forwards_persistence_result sock id cb st d u :
  getActiveDebate id st = Some d ->
  users st !! username sock = Some u ->
  ∃ st1 k,
    closeDebate sock id (VFun cb) st = Pending st1 [] (SaveEndDiscussion id) k
    ∧ (∀ update st', k (Resolved update) st' = Done st' [Reply (VFun cb) update])
    ∧ (∀ persistence update,
         persistence (SaveEndDiscussion id) = Resolved update ->
         settle persistence (closeDebate sock id (VFun cb) st)
         = (st1, [Reply (VFun cb) update], None)).
Proof.
  intros Hd Hu.
  destruct (getActiveDebate_present _ _ _ Hd) as (z & -> & Hz).
  pose proof (closeDebate_found sock z cb st d u Hz Hu) as Heq.
  eexists _, _. split; [exact Heq |]. split; [done |].
  intros persistence update Hp. rewrite Heq. cbn. by rewrite Hp.
Qed.

End Replies.

(** ** The two registries *)

Section Registries.
Context {Debate : Type} `{!DebateEntity Debate}.
Variable conf : DebateConfig.
Implicit Types (st : Namespace Debate) (sock : Socket).

Lemma activeSummaries_missing st ids :
  activeSummaries st ids = None ↔ ∃ z, z ∈ ids ∧ activeDebates st !! z = None.
Proof.
  induction ids as [|i ids IH]; cbn.
  - split; [done |]. intros (z & Hz & _). by apply elem_of_nil in Hz.
  - destruct (activeDebates st !! i) as [d|] eqn:Hi.
    + rewrite fmap_None, IH. split.
      * intros (z & Hz & Hnone). exists z. split; [by right | done].
      * intros (z & Hz & Hnone). apply elem_of_cons in Hz as [-> | Hz]; [congruence |].
        by exists z.
    + split; [| done]. intros _. exists i. split; [by left | done].
Qed.

Lemma activeSummaries_registered st ids :
  (∀ z, z ∈ ids -> is_Some (activeDebates st !! z)) -> is_Some (activeSummaries st ids).
Proof.
  intros Hall. destruct (activeSummaries st ids) eqn:Hs; [done |].
  apply activeSummaries_missing in Hs as (z & Hz & Hnone).
  destruct (Hall z Hz) as [d Hd]. congruence.
Qed.

(** close-debate takes the debate out of the registry and out of the
    tracked set of the caller in one synchronous step. *)
Lemma closeDebate_untracks_caller sock z cb st d u :
  activeDebates st !! z = Some d ->
  debateID d = z ->
  users st !! username sock = Some u ->
  ∃ st1 k u1,
    closeDebate sock (VInt z) (VFun cb) st = Pending st1 [] (SaveEndDiscussion (VInt z)) k
    ∧ activeDebates st1 !! z = None
    ∧ users st1 !! username sock = Some u1
    ∧ z ∉ tracked u1.
Proof.
  intros Hd Hid Hu. rewrite (closeDebate_found sock z cb st d u Hd Hu).
  eexists _, _, _. split; [done |]. cbn. rewrite lookup_delete_eq, lookup_insert_eq.
  split; [done |]. split; [done |]. cbn. rewrite elem_of_set_delete, Hid. tauto.
Qed.

(** The tracked sets of the other moderators are not looked at. *)
Lemma closeDebate_keeps_other_sessions sock z cb st d u name :
  activeDebates st !! z = Some d ->
  users st !! username sock = Some u ->
  name ≠ username sock ->
  ∃ st1 k,
    closeDebate sock (VInt z) (VFun cb) st = Pending st1 [] (SaveEndDiscussion (VInt z)) k
    ∧ activeDebates st1 !! z = None
    ∧ users st1 !! name = users st !! name.
Proof.
  intros Hd Hu Hne. rewrite (closeDebate_found sock z cb st d u Hd Hu).
  eexists _, _. split; [done |]. cbn. rewrite lookup_delete_eq.
  split; [done |]. by rewrite lookup_insert_ne.
Qed.

(** The state in which two moderators are connected. *)
Lemma both_connected :
  (startSocketHandling Run.bob (startSocketHandling Run.alice (Run.initial (Debate := Debate))).1).1
  = {| activeDebates := ∅;
       users := <[Some "bob" := {| socket := Run.bob; tracked := [] |}]>
                  (<[Some "alice" := {| socket := Run.alice; tracked := [] |}]> ∅);
       constructed := 0 |}.
Proof. reflexivity. Qed.

(** What the run in which the second moderator closes the debate of the
    first leaves behind, for titles that pass the validation. *)
Lemma closed_by_other_state heading text :
  (String.length heading <= MAX_TITLE_LENGTH conf)%nat ->
  (String.length text <= MAX_DESCRIPTION_LENGTH conf)%nat ->
  let st := Run.closed_by_other conf heading text in
  Run.reachable conf st
  ∧ activeDebates st !! Run.opened heading text = None
  ∧ users st !! Some "alice"
    = Some {| socket := Run.alice; tracked := [Run.opened heading text] |}.
Proof.
  intros Hh Ht.
  assert (Run.created conf heading text
          = {| activeDebates :=
                 <[Run.opened heading text := construct heading text Run.alice 0]> ∅;
               users :=
                 <[Some "alice" :=
                     {| socket := Run.alice; tracked := [Run.opened heading text] |}]>
                   (<[Some "bob" := {| socket := Run.bob; tracked := [] |}]>
                      (<[Some "alice" := {| socket := Run.alice; tracked := [] |}]> ∅));
               constructed := 1 |}) as Hcreated.
  { unfold Run.created. rewrite both_connected. cbn [handle].
    erewrite (newDebate_valid conf Run.alice _ 1 _ heading text); [| done ..].
    cbn. unfold with_users, Run.opened. cbn. by rewrite set_add_nil. }
  cbn zeta. split; [| split].
  - unfold Run.closed_by_other. apply Run.reachable_command.
    + unfold Run.created. apply Run.reachable_command.
      * do 2 apply Run.reachable_connection. apply Run.reachable_initial.
      * rewrite both_connected. unfold Run.connected. cbn. by simplify_map_eq.
    + rewrite Hcreated. unfold Run.connected. cbn. by simplify_map_eq.
  - unfold Run.closed_by_other. rewrite Hcreated. cbn [handle].
    erewrite closeDebate_found; [| apply lookup_insert_eq | cbn; by simplify_map_eq].
    cbn. apply lookup_delete_eq.
  - unfold Run.closed_by_other. rewrite Hcreated. cbn [handle].
    erewrite closeDebate_found; [| apply lookup_insert_eq | cbn; by simplify_map_eq].
    cbn. by simplify_map_eq.
Qed.

(** C10.  list-debates dereferences the registered debate of every
    identifier in the tracked set of the caller.  When one of them is not
    in the debate registry the handler throws a TypeError before it awaits
    anything, so no reply is ever sent; when all of them are registered
    and the persistence layer resolves to a list of discussions, the reply
    is sent.  A state of the first kind is reached when a moderator closes
    a debate that another moderator created, since close-debate untracks
    the debate from the caller only. *)
Theorem getDebates_throws_on_unregistered_tracked_id sock cb st u :
  users st !! username sock = Some u ->
  ((∃ z, z ∈ tracked u ∧ activeDebates st !! z = None) ->
     ∀ persistence,
       settle persistence (getDebates sock (VFun cb) st)
       = (st, [], Some (TypeError "Cannot read properties of undefined (reading 'debateID')")))
  ∧ ((∀ z, z ∈ tracked u -> is_Some (activeDebates st !! z)) ->
     ∀ persistence discussions closed,
       persistence (GetDiscussionsAdmin (username sock)) = Resolved (VArr discussions) ->
       discussionSummaries discussions = Some closed ->
       ∃ debates,
         settle persistence (getDebates sock (VFun cb) st)
         = (st, [Reply (VFun cb) (VArr (debates ++ closed))], None))
  ∧ (let stale := Run.closed_by_other conf "" "" in
     Run.reachable conf stale
     ∧ ∃ creator z,
         users stale !! username Run.alice = Some creator
         ∧ z ∈ tracked creator
         ∧ activeDebates stale !! z = None).
Proof.
  intros Hu. split; [| split].
  - intros Hmissing persistence. apply activeSummaries_missing in Hmissing.
    unfold getDebates. cbn [isFunction negb]. by rewrite Hu, Hmissing.
  - intros Hall persistence discussions closed Hp Hclosed.
    destruct (activeSummaries_registered st (tracked u) Hall) as [debates Hdebates].
    exists debates. unfold getDebates. cbn [isFunction negb].
    rewrite Hu, Hdebates. cbn. rewrite Hp. cbn. by rewrite Hclosed.
  - destruct (closed_by_other_state "" "") as (Hreach & Hnone & Halice); [cbn; lia ..|].
    split; [done |]. eexists _, _. split; [exact Halice |]. split; [| exact Hnone].
    cbn. by left.
Qed.

End Registries.

(** C2.  The two registries do not stay in lockstep: when one moderator
    creates a debate and another moderator closes it, the identifier leaves
    the debate registry and the tracked set of the caller, which never held
    it, and stays in the tracked set of the moderator who created the
    debate. *)
Theorem closeDebate_by_other_moderator_breaks_lockstep :
  let st := Run.closed_by_other Plain.conf "T" "D" in
  Run.reachable Plain.conf st
  ∧ Run.opened (Debate := Plain.Debate) "T" "D" = 0%Z
  ∧ activeDebates st !! 0%Z = None
  ∧ tracked <$> users st !! Some "alice" = Some [0%Z]
  ∧ ¬ lockstep st.
Proof.
  destruct (closed_by_other_state Plain.conf "T" "D") as (Hreach & Hnone & Halice);
    [cbn; lia ..|].
  cbn zeta. split; [done |]. split; [done |]. split; [exact Hnone |].
  split; [by rewrite Halice |].
  intros Hlock. destruct (proj1 (Hlock 0%Z)) as [d Hd].
  - eexists _, _. split; [exact Halice |]. by left.
  - change 0%Z with (Run.opened (Debate := Plain.Debate) "T" "D") in Hd. congruence.
Qed.

(** ** What does stay in step *)

Section Invariant.
Context {Debate : Type} `{!DebateEntity Debate} `{!DebateIdentity Debate}.
Variable conf : DebateConfig.
Implicit Types (st : Namespace Debate) (sock : Socket).

Lemma settle_Pending_state {S E C : Type} (answers : C -> answer) (s : S) (t : list E) c k :
  (settle answers (Pending s t c k)).1.1 = (settle answers (k (answers c) s)).1.1.
Proof. cbn. by destruct (settle answers (k (answers c) s)) as [[??]?]. Qed.

Ltac run := repeat first [rewrite settle_Pending_state | progress cbn | case_match].

Ltac registered :=
  match goal with
  | H : getActiveDebate _ _ = Some _ |- _ =>
      let z := fresh "z" in
      let Hz := fresh "Hz" in
      apply getActiveDebate_present in H as (z & -> & Hz)
  end.

(** Every command served to a connected moderator is one of the four
    steps. *)
Lemma handle_step c sock payload callback answers st :
  Run.connected sock st ->
  Run.step st (settle answers (handle conf c sock payload callback st)).1.1.
Proof.
  intros [u Hu].
  destruct c; cbn [handle].
  - unfold getDebates. rewrite Hu. run; apply Run.step_same.
  - unfold getDebateQuestions. run; apply Run.step_same.
  - unfold getDebateSuggestions. run; apply Run.step_same.
  - unfold newDebate, reading. run; try apply Run.step_same; simplify_eq.
    by apply Run.step_create.
  - unfold closeDebate, interpolating. run; try apply Run.step_same; simplify_eq.
    all: registered; cbn in *; simplify_eq; by eapply Run.step_close.
  - unfold newQuestion, reading. run; try apply Run.step_same; simplify_eq.
    all: registered; cbn; eapply Run.step_mutate; [done | apply sendNewQuestion_debateID].
  - unfold banUser, reading, logging. run; apply Run.step_same.
  - unfold approveQuestion, reading, logging. run; try apply Run.step_same; simplify_eq.
    all: registered; cbn; eapply Run.step_mutate; [done |].
    all: match goal with
         | H : approveSuggestion ?d ?v = _ |- _ =>
             pose proof (approveSuggestion_debateID d v) as Hid; by rewrite H in Hid
         end.
  - unfold rejectQuestion, reading, logging. run; try apply Run.step_same; simplify_eq.
    all: registered; cbn; eapply Run.step_mutate; [done |].
    all: match goal with
         | H : rejectSuggestion ?d ?v = _ |- _ =>
             pose proof (rejectSuggestion_debateID d v) as Hid; by rewrite H in Hid
         end.
Qed.

Lemma elem_of_set_add_mono x y s : x ∈ s -> x ∈ set_add y s.
Proof. unfold set_add. case_bool_decide; [done |]. intros Hx. apply elem_of_app. by left. Qed.

Lemma step_invariant st st' :
  Run.step st st' ->
  Run.keyed st ∧ (∀ z, is_Some (activeDebates st !! z) -> Run.tracked_somewhere st z) ->
  Run.keyed st' ∧ (∀ z, is_Some (activeDebates st' !! z) -> Run.tracked_somewhere st' z).
Proof.
  intros Hstep [Hkeyed Htracked].
  destruct Hstep as [| z d d' Hz Hid | debate name u Hu | z d name u Hz Hu].
  - done.
  - split.
    + intros z' d0. cbn. rewrite lookup_insert. case_decide; [| apply Hkeyed].
      intros [= <-]. subst z'. rewrite Hid. by apply Hkeyed.
    + intros z' Hz'. cbn in Hz'. rewrite lookup_insert in Hz'.
      destruct (Htracked z') as (n & u0 & Hn & Hin); [by case_decide; subst |].
      by exists n, u0.
  - split.
    + intros z' d0. cbn. rewrite lookup_insert. case_decide; [| apply Hkeyed].
      by intros [= <-].
    + intros z' Hz'. cbn in Hz'. rewrite lookup_insert in Hz'. case_decide as Hcase.
      * subst z'. eexists name, _. cbn. rewrite lookup_insert_eq. split; [done |].
        cbn. apply elem_of_set_add.
      * destruct (Htracked z' Hz') as (n & u0 & Hn & Hin).
        destruct (decide (n = name)) as [-> | Hname].
        -- eexists name, _. cbn. rewrite lookup_insert_eq. split; [done |].
           cbn. apply elem_of_set_add_mono. by simplify_eq.
        -- exists n, u0. cbn. by rewrite lookup_insert_ne.
  - split.
    + intros z' d0. cbn. rewrite lookup_delete. case_decide; [done | apply Hkeyed].
    + intros z' Hz'. cbn in Hz'. rewrite lookup_delete in Hz'. case_decide as Hcase.
      * by destruct Hz'.
      * destruct (Htracked z' Hz') as (n & u0 & Hn & Hin).
        destruct (decide (n = name)) as [-> | Hname].
        -- eexists name, _. cbn. rewrite lookup_insert_eq. split; [done |].
           cbn. rewrite elem_of_set_delete, (Hkeyed z d Hz). simplify_eq. split; [done | congruence].
        -- exists n, u0. cbn. by rewrite lookup_insert_ne.
Qed.

(** One half of the lockstep does hold: in every state the namespace
    reaches, every debate is registered under its own identifier and every
    registered identifier is in the tracked set of some moderator.  The
    other half fails: a tracked identifier need not be registered. *)
Lemma reachable_registered_are_tracked st :
  Run.reachable conf st ->
  Run.keyed st ∧ (∀ z, is_Some (activeDebates st !! z) -> Run.tracked_somewhere st z).
Proof.
  induction 1 as [| sock st Hreach IH | c sock payload callback answers st Hreach IH Hconn].
  - split.
    + intros z d. cbn. by rewrite lookup_empty.
    + intros z [d Hd]. cbn in Hd. by rewrite lookup_empty in Hd.
  - destruct IH as [Hkeyed Htracked]. cbn. split.
    + intros z d. rewrite initializeUsers_activeDebates. apply Hkeyed.
    + intros z. rewrite initializeUsers_activeDebates. intros Hz.
      destruct (Htracked z Hz) as (n & u0 & Hn & Hin).
      destruct (decide (n = username sock)) as [-> | Hname].
      * eexists _, _. rewrite initializeUsers_entry, Hn. split; [done |]. done.
      * exists n, u0. by rewrite initializeUsers_other.
  - eapply step_invariant; [| exact IH]. by apply handle_step.
Qed.

End Invariant.

#[global] Instance plain_identity : DebateIdentity Plain.Debate.
Proof. by split. Qed.

(** ** The connection gate *)

Section Gate.
Context {Debate : Type} `{!DebateEntity Debate}.
Variable LOGIN_PASSWORD_INVALID : string.
Implicit Types (st : Namespace Debate) (sock : Socket).

Lemma is_true_spec v : is_true v = true ↔ v = VBool true.
Proof. destruct v as [| |[|]| | | | | |]; cbn; split; congruence. Qed.

Lemma is_true_false v : v ≠ VBool true -> is_true v = false.
Proof. intros Hv. apply not_true_is_false. by rewrite is_true_spec. Qed.

Lemma no_secret_immediate sock :
  no_secret sock = true ->
  LoginMiddleware.middlewareFunction LOGIN_PASSWORD_INVALID sock
  = Done sock [LoginMiddleware.Next (Some "No password specified")].
Proof.
  unfold no_secret, LoginMiddleware.middlewareFunction.
  destruct (query_password sock) as [password|]; [| done]. by intros ->.
Qed.

(** A connection whose secret compares equal to the stored hash is handed
    to the namespace: its session is initialized and the handlers are
    attached. *)
Lemma connect_authenticated verifier sock st password adminHash id :
  query_password sock = Some password -> password ≠ "" ->
  verifier (LoginMiddleware.GetAdminPassword (query_username sock)) = Resolved adminHash ->
  truthy adminHash = true ->
  verifier (LoginMiddleware.Compare password adminHash) = Resolved (VBool true) ->
  verifier (LoginMiddleware.GetAdminId (query_username sock)) = Resolved id ->
  Server.connect LOGIN_PASSWORD_INVALID verifier sock st
  = startSocketHandling
      {| sock_id := sock_id sock; query_username := query_username sock;
         query_password := None; username := query_username sock; userid := id |} st.
Proof.
  intros Hp Hne Hhash Htruthy Hcmp Hid. apply String.eqb_neq in Hne.
  unfold Server.connect, LoginMiddleware.middlewareFunction.
  rewrite Hp, Hne. cbn. rewrite Hhash, Htruthy. cbn. rewrite Hcmp. cbn. by rewrite Hid.
Qed.

(** C9.  A connection whose handshake carries no secret is failed by the
    middleware at once: [next] is called with an error and no call to the
    credential verifier is awaited.  A connection that fails
    authentication, for want of a secret, for an unknown username or for a
    wrong secret, leaves the namespace as it was: no session entry is
    created and no handler is attached to the socket. *)
Theorem failed_authentication_attaches_nothing verifier sock st :
  (no_secret sock = true ->
     LoginMiddleware.middlewareFunction LOGIN_PASSWORD_INVALID sock
     = Done sock [LoginMiddleware.Next (Some "No password specified")])
  ∧ (authentication_fails verifier sock ->
     Server.connect LOGIN_PASSWORD_INVALID verifier sock st = (st, [])).
Proof.
  split; [apply no_secret_immediate |].
  intros [Hmissing | password adminHash Hp Hne Hhash Hfalsy
                   | password adminHash Hp Hne Hhash Htruthy Hcmp];
    unfold Server.connect.
  - by rewrite (no_secret_immediate _ Hmissing).
  - apply String.eqb_neq in Hne. unfold LoginMiddleware.middlewareFunction.
    rewrite Hp, Hne. cbn. by rewrite Hhash, Hfalsy.
  - apply String.eqb_neq in Hne. unfold LoginMiddleware.middlewareFunction.
    rewrite Hp, Hne. cbn. rewrite Hhash, Htruthy. cbn.
    destruct (verifier (LoginMiddleware.Compare password adminHash)) as [res|err]; cbn.
    + rewrite is_true_false; [done | congruence].
    + done.
Qed.

End Gate.

(** * The theorems at concrete requests

    The handlers run on the plain debate entity, in the state [created] in
    which alice and bob are connected and alice has opened debate [0]. *)

Section Instances.
Import Example.

(** alice reconnects on a new socket and keeps debate [0]. *)
Lemma initializeUsers_preserves_tracked_witness :
  users created !! Some "alice" = Some {| socket := Run.alice; tracked := [0%Z] |}
  ∧ users (initializeUsers (Run.moderator "socket-c" "alice") created) !! Some "alice"
    = Some {| socket := Run.moderator "socket-c" "alice"; tracked := [0%Z] |}.
Proof.
  split; [vm_compute; reflexivity |].
  apply (proj1 (initializeUsers_preserves_tracked (Run.moderator "socket-c" "alice") created)
           {| socket := Run.alice; tracked := [0%Z] |}).
  vm_compute; reflexivity.
Defined.

(** close-debate for the string "0", which is not the identifier [0]. *)
Lemma unknown_debate_gets_sentinel_witness :
  handle conf CloseDebate Run.bob (VStr "0") (VFun 3) created
  = Done created [Reply (VFun 3) (VBool false)].
Proof.
  apply (unknown_debate_gets_sentinel conf CloseDebate Run.bob (VStr "0") (VStr "0") 3 created
           (VBool false)).
  - reflexivity.
  - reflexivity.
  - intros z Hz. discriminate Hz.
  - intros _. reflexivity.
  - reflexivity.
Defined.

(** An open question whose [answers] field is a number. *)
Lemma newQuestion_open_has_no_answers_witness :
  ∃ question st1 k,
    newQuestion conf Run.alice
      (VObj [("debateId", VInt 0); ("title", VStr "Q"); ("answers", VInt 3);
             ("isOpenQuestion", VBool true)]) (VFun 4) created
    = Pending st1 [] (SendNewQuestion 0%Z question) k
    ∧ q_answers question = VArr []
    ∧ q_title question = VStr "Q"
    ∧ q_isOpenQuestion question = VBool true
    ∧ ∀ v st', k (Resolved v) st' = Done st' [Reply (VFun 4) (q_id question)].
Proof.
  refine (newQuestion_open_has_no_answers conf Run.alice
            (VObj [("debateId", VInt 0); ("title", VStr "Q"); ("answers", VInt 3);
                   ("isOpenQuestion", VBool true)]) 4 created 0%Z
            (construct "T" "D" Run.alice 0) "Q" _ _ _ _).
  - reflexivity.
  - reflexivity.
  - reflexivity.
  - vm_compute; reflexivity.
Defined.

(** bob opens a second debate while the persistence layer is down. *)
Lemma newDebate_registers_before_persisting_witness :
  ∃ st1 k,
    newDebate conf Run.bob (VObj [("title", VStr "U"); ("description", VStr "V")]) (VFun 5)
      created
    = Pending st1 [] (SaveDiscussion (construct "U" "V" Run.bob 1)) k
    ∧ activeDebates st1 !! 1%Z = Some (construct "U" "V" Run.bob 1)
    ∧ (∃ u1, users st1 !! Some "bob" = Some u1 ∧ 1%Z ∈ tracked u1)
    ∧ (∀ a st', k a st' = Done st' [StartSocketHandling 1; Reply (VFun 5) (VInt 1)])
    ∧ (∀ persistence,
         settle persistence
           (newDebate conf Run.bob (VObj [("title", VStr "U"); ("description", VStr "V")])
              (VFun 5) created)
         = (st1, [StartSocketHandling 1; Reply (VFun 5) (VInt 1)], None)).
Proof.
  refine (newDebate_registers_before_persisting conf Run.bob
            (VObj [("title", VStr "U"); ("description", VStr "V")]) 5 created "U" "V"
            {| socket := Run.bob; tracked := [] |} _ _ _ _ _).
  - reflexivity.
  - reflexivity.
  - vm_compute; lia.
  - vm_compute; lia.
  - vm_compute; reflexivity.
Defined.

(** alice closes her debate and the persistence layer answers [null]. *)
Lemma closeDebate_forwards_persistence_result_witness :
  ∃ st1 k,
    closeDebate Run.alice (VInt 0) (VFun 6) created
    = Pending st1 [] (SaveEndDiscussion (VInt 0)) k
    ∧ (∀ update st', k (Resolved update) st' = Done st' [Reply (VFun 6) update])
    ∧ (∀ persistence update,
         persistence (SaveEndDiscussion (VInt 0)) = Resolved update ->
         settle persistence (closeDebate Run.alice (VInt 0) (VFun 6) created)
         = (st1, [Reply (VFun 6) update], None)).
Proof.
  apply (closeDebate_forwards_persistence_result Run.alice (VInt 0) 6 created
           (construct "T" "D" Run.alice 0) {| socket := Run.alice; tracked := [0%Z] |}).
  - vm_compute; reflexivity.
  - vm_compute; reflexivity.
Defined.

(** A handshake without a password, and one with a password that the
    stored hash does not match. *)
Lemma failed_authentication_attaches_nothing_witness :
  LoginMiddleware.middlewareFunction "Invalid password" anonymous
  = Done anonymous [LoginMiddleware.Next (Some "No password specified")]
  ∧ Server.connect "Invalid password" verifier anonymous created = (created, [])
  ∧ Server.connect "Invalid password" verifier intruder created = (created, []).
Proof.
  split; [| split].
  - apply (proj1 (failed_authentication_attaches_nothing "Invalid password"
                    verifier anonymous created)).
    reflexivity.
  - apply (proj2 (failed_authentication_attaches_nothing "Invalid password"
                    verifier anonymous created)).
    apply missing_secret. reflexivity.
  - apply (proj2 (failed_authentication_attaches_nothing "Invalid password"
                    verifier intruder created)).
    apply (wrong_secret verifier intruder "guess" (VStr "$2b$10$hash")).
    + reflexivity.
    + discriminate.
    + reflexivity.
    + reflexivity.
    + discriminate.
Defined.

(** alice lists her debates after bob has closed debate [0]. *)
Lemma getDebates_throws_on_unregistered_tracked_id_witness :
  users stale !! Some "alice" = Some {| socket := Run.alice; tracked := [0%Z] |}
  ∧ activeDebates stale !! 0%Z = None
  ∧ ∀ persistence,
      settle persistence (getDebates Run.alice (VFun 7) stale)
      = (stale, [],
         Some (TypeError "Cannot read properties of undefined (reading 'debateID')")).
Proof.
  split; [vm_compute; reflexivity |]. split; [vm_compute; reflexivity |].
  apply (proj1 (getDebates_throws_on_unregistered_tracked_id conf Run.alice 7 stale
                  {| socket := Run.alice; tracked := [0%Z] |} ltac:(vm_compute; reflexivity))).
  exists 0%Z. split.
  - apply list_elem_of_here.
  - vm_compute; reflexivity.
Defined.

End Instances.

(** * Further properties of the handlers *)

(** ** Replies *)

Section MoreReplies.
Context {Debate : Type} `{!DebateEntity Debate}.
Variable conf : DebateConfig.
Implicit Types (st : Namespace Debate) (sock : Socket) (payload id callback : val).

(** Every handler checks its reply parameter first: when it is not a
    function the handler returns at once, whatever the payload is (a [null]
    payload included); nothing is read, changed, awaited or replied. *)
Theorem not_callable_reply_aborts c sock payload callback st :
  isFunction callback = false ->
  handle conf c sock payload callback st = Done st [].
Proof.
  intros Hcb.
  destruct c; cbn [handle];
    unfold getDebates, getDebateQuestions, getDebateSuggestions, newDebate, closeDebate,
      newQuestion, banUser, approveQuestion, rejectQuestion;
    by rewrite Hcb.
Qed.

(** approve-suggestion and reject-suggestion on a registered debate, with
    integer identifiers: the debate decides, and the handler replies [false]
    only when the debate answered exactly [false]; any other answer
    ([true], [undefined], a number) is replied to with [true].  The state
    of the debate is the one the operation left; nothing else changes. *)
Theorem suggestion_decision_reply sock payload sid z (d : Debate) cb st :
  get payload "suggestionId" = Some (VInt sid) ->
  get payload "debateId" = Some (VInt z) ->
  activeDebates st !! z = Some d ->
  approveQuestion sock payload (VFun cb) st
  = Done (with_activeDebates <[z := (approveSuggestion d (VInt sid)).2]> st)
      [Reply (VFun cb) (VBool (negb (is_false (approveSuggestion d (VInt sid)).1)))]
  ∧ rejectQuestion sock payload (VFun cb) st
    = Done (with_activeDebates <[z := (rejectSuggestion d (VInt sid)).2]> st)
        [Reply (VFun cb) (VBool (negb (is_false (rejectSuggestion d (VInt sid)).1)))].
Proof.
  intros Hs Hd Hz. split.
  - unfold approveQuestion. cbn [isFunction negb]. rewrite Hs, Hd. cbn. rewrite Hz.
    destruct (approveSuggestion d (VInt sid)) as [res d']. cbn.
    by destruct (is_false res).
  - unfold rejectQuestion. cbn [isFunction negb]. rewrite Hs, Hd. cbn. rewrite Hz.
    destruct (rejectSuggestion d (VInt sid)) as [res d']. cbn.
    by destruct (is_false res).
Qed.

(** A new-question request whose [isOpenQuestion] is not [true] (it is
    [false], absent, or not a boolean at all, such as the string "true")
    makes a closed question: the flag handed to the question is [false] and
    the answers are the array of strings the request supplied, which has to
    be within the maximum count.  The question is sent to the debate and
    its identifier is the reply; the sessions are not touched. *)
Theorem newQuestion_closed_keeps_answers sock payload cb st z (d : Debate) t items flag :
  get payload "debateId" = Some (VInt z) ->
  get payload "title" = Some (VStr t) ->
  get payload "answers" = Some (VArr items) ->
  get payload "isOpenQuestion" = Some flag ->
  is_true flag = false ->
  forallb (fun a => isString a None) items = true ->
  (length items <= MAX_CLOSED_ANSWERS conf)%nat ->
  activeDebates st !! z = Some d ->
  ∃ question k,
    newQuestion conf sock payload (VFun cb) st
    = Pending (with_activeDebates <[z := sendNewQuestion d question]> st) []
        (SendNewQuestion (debateID d) question) k
    ∧ q_title question = VStr t
    ∧ q_answers question = VArr items
    ∧ q_isOpenQuestion question = VBool false
    ∧ (∀ v st', k (Resolved v) st' = Done st' [Reply (VFun cb) (q_id question)])
    ∧ (∀ e st', k (Rejected e) st' = Thrown st' [] (Rejection e)).
Proof.
  intros Hid Ht Ha Hf Hflag Hall Hlen Hz.
  apply Nat.leb_le in Hlen.
  unfold newQuestion. cbn [isFunction negb]. rewrite Hid, Ht, Ha, Hf. cbn [reading].
  destruct flag as [| |[|]| | | | | |]; try discriminate Hflag; cbn;
    rewrite Hall, Hlen, Hz; cbn; eexists _, _; (split; [reflexivity |]); by cbn.
Qed.

(** close-debate awaits the persistence call without a handler for its
    failure: when the call rejects, the debate has left the registry and
    the tracked set of the caller all the same, and no reply is sent. *)
Theorem closeDebate_rejected_persistence sock z (d : Debate) u cb st persistence e :
  activeDebates st !! z = Some d ->
  users st !! username sock = Some u ->
  persistence (SaveEndDiscussion (VInt z)) = Rejected e ->
  ∃ st1,
    settle persistence (closeDebate sock (VInt z) (VFun cb) st) = (st1, [], Some (Rejection e))
    ∧ activeDebates st1 !! z = None
    ∧ tracked <$> users st1 !! username sock = Some (set_delete (debateID d) (tracked u)).
Proof.
  intros Hz Hu Hp. rewrite (closeDebate_found sock z cb st d u Hz Hu). cbn. rewrite Hp.
  eexists. split; [reflexivity |]. cbn. by rewrite lookup_delete_eq, lookup_insert_eq.
Qed.

Lemma set_delete_absent x s : x ∉ s -> set_delete x s = s.
Proof.
  intros Hx. unfold set_delete. induction s as [|y s IH]; [done |].
  apply not_elem_of_cons in Hx as [Hne Hx]. cbn.
  destruct (y =? x)%Z eqn:Heq; [apply Z.eqb_eq in Heq; congruence |]. cbn. by rewrite IH.
Qed.

Lemma set_delete_add x s : x ∉ s -> set_delete x (set_add x s) = s.
Proof.
  intros Hx. unfold set_add. rewrite bool_decide_eq_false_2 by done.
  unfold set_delete. rewrite List.filter_app. cbn. rewrite Z.eqb_refl. cbn.
  rewrite app_nil_r. by apply set_delete_absent.
Qed.

Lemma user_eta (u : User) : {| socket := socket u; tracked := tracked u |} = u.
Proof. by destruct u. Qed.

(** Creating a debate and closing it again, by the same moderator, gives
    back the registries as they were, when the identifier of the new debate
    was neither registered nor tracked by the caller before: the debate
    registry and every session are as before the two requests. *)
Theorem create_then_close_restores sock payload cb cb' st t d u persistence persistence' :
  get payload "title" = Some (VStr t) ->
  get payload "description" = Some (VStr d) ->
  (String.length t <= MAX_TITLE_LENGTH conf)%nat ->
  (String.length d <= MAX_DESCRIPTION_LENGTH conf)%nat ->
  users st !! username sock = Some u ->
  let debate := construct t d sock (constructed st) in
  activeDebates st !! debateID debate = None ->
  debateID debate ∉ tracked u ->
  let st1 := (settle persistence (newDebate conf sock payload (VFun cb) st)).1.1 in
  let st2 := (settle persistence' (closeDebate sock (VInt (debateID debate)) (VFun cb') st1)).1.1 in
  activeDebates st2 = activeDebates st ∧ users st2 = users st.
Proof.
  intros Ht Hd Hlt Hld Hu debate Hfresh Huntracked st1 st2.
  subst st2 st1.
  rewrite (newDebate_valid conf sock payload cb st t d u Ht Hd Hlt Hld Hu). cbn [settle fst].
  erewrite closeDebate_found; [| cbn; apply lookup_insert_eq | cbn; apply lookup_insert_eq].
  cbn. destruct (persistence' _); cbn;
    rewrite delete_insert_id by done; rewrite insert_insert_eq;
    match goal with
    | |- context [List.filter ?f (set_add ?x ?s)] =>
        change (List.filter f (set_add x s)) with (set_delete x (set_add x s))
    end;
    rewrite set_delete_add by done; rewrite user_eta; by rewrite insert_id.
Qed.

(** Once a debate is closed its identifier is unknown to every moderator:
    closing it again replies [false], and listing its questions or its
    suggestions replies [-1], without any change. *)
Theorem closed_debate_is_unknown sock sock' z (d : Debate) u cb cb' st persistence :
  activeDebates st !! z = Some d ->
  users st !! username sock = Some u ->
  let st1 := (settle persistence (closeDebate sock (VInt z) (VFun cb) st)).1.1 in
  closeDebate sock' (VInt z) (VFun cb') st1 = Done st1 [Reply (VFun cb') (VBool false)]
  ∧ getDebateQuestions sock' (VInt z) (VFun cb') st1 = Done st1 [Reply (VFun cb') (VInt (-1))]
  ∧ getDebateSuggestions sock' (VInt z) (VFun cb') st1
    = Done st1 [Reply (VFun cb') (VInt (-1))].
Proof.
  intros Hz Hu st1.
  assert (activeDebates st1 !! z = None) as Hnone.
  { subst st1. rewrite (closeDebate_found sock z cb st d u Hz Hu). cbn.
    destruct (persistence _); cbn; apply lookup_delete_eq. }
  unfold closeDebate, getDebateQuestions, getDebateSuggestions. cbn. by rewrite Hnone.
Qed.

End MoreReplies.

(** ** Listing the debates *)

Section Listing.
Context {Debate : Type} `{!DebateEntity Debate}.
Variable conf : DebateConfig.
Implicit Types (st : Namespace Debate) (sock : Socket).

Lemma activeSummaries_shape st ids active :
  activeSummaries st ids = Some active ->
  Forall2 (fun z v => ∃ d, activeDebates st !! z = Some d ∧ v = summary d) ids active.
Proof.
  revert active. induction ids as [|z ids IH]; intros active; cbn.
  - intros [= <-]. constructor.
  - destruct (activeDebates st !! z) as [d|] eqn:Hz; [| done].
    destruct (activeSummaries st ids) as [rest|]; [| done]. cbn. intros [= <-].
    constructor; [by exists d | by apply IH].
Qed.

Lemma discussionSummary_readable discussion :
  nullish discussion = false -> is_Some (discussionSummary discussion).
Proof. by destruct discussion. Qed.

Lemma discussionSummaries_readable discussions :
  Forall (fun v => nullish v = false) discussions ->
  ∃ closed, discussionSummaries discussions = Some closed
            ∧ Forall2 (fun v s => discussionSummary v = Some s) discussions closed.
Proof.
  induction 1 as [|v vs Hv _ (closed & Hclosed & Hall)]; cbn.
  - exists []. split; [done | constructor].
  - destruct (discussionSummary_readable v Hv) as [s Hs]. rewrite Hs, Hclosed. cbn.
    exists (s :: closed). split; [done |]. by constructor.
Qed.

Lemma discussionSummaries_unreadable discussions :
  Exists (fun v => nullish v = true) discussions -> discussionSummaries discussions = None.
Proof.
  induction 1 as [v vs Hv | v vs _ IH]; cbn.
  - by destruct v.
  - destruct (discussionSummary v); [| done]. by rewrite IH.
Qed.

(** The reply of list-debates, when every tracked debate is registered and
    the persistence layer resolves to an array of discussion records: it
    holds one entry per tracked identifier, in the order the debates were
    tracked, each the summary of the registered debate and marked open,
    followed by one entry per discussion record, in the order of the
    array. *)
Theorem getDebates_lists_tracked_then_persisted sock cb st u persistence discussions :
  users st !! username sock = Some u ->
  (∀ z, z ∈ tracked u -> is_Some (activeDebates st !! z)) ->
  persistence (GetDiscussionsAdmin (username sock)) = Resolved (VArr discussions) ->
  Forall (fun v => nullish v = false) discussions ->
  ∃ active closed,
    settle persistence (getDebates sock (VFun cb) st)
    = (st, [Reply (VFun cb) (VArr (active ++ closed))], None)
    ∧ Forall2 (fun z v => ∃ d, activeDebates st !! z = Some d ∧ v = summary d)
        (tracked u) active
    ∧ Forall2 (fun v s => discussionSummary v = Some s) discussions closed
    ∧ length (active ++ closed) = (length (tracked u) + length discussions)%nat.
Proof.
  intros Hu Hall Hp Hreadable.
  destruct (activeSummaries_registered st (tracked u) Hall) as [active Hactive].
  destruct (discussionSummaries_readable discussions Hreadable) as (closed & Hclosed & Hshape).
  exists active, closed.
  pose proof (activeSummaries_shape _ _ _ Hactive) as Hactive_shape.
  split; [| split; [done | split; [done |]]].
  - unfold getDebates. cbn [isFunction negb]. rewrite Hu, Hactive. cbn. rewrite Hp. cbn.
    by rewrite Hclosed.
  - rewrite length_app.
    by rewrite <- (Forall2_length _ _ _ Hactive_shape), <- (Forall2_length _ _ _ Hshape).
Qed.

(** list-debates sends no reply when the persistence layer lets it down:
    when the call rejects, when it resolves to something that cannot be
    iterated, and when one of the records is [null] or [undefined], the
    handler throws after the await and the state is as it was. *)
Theorem getDebates_unreadable_discussions sock cb st u persistence :
  users st !! username sock = Some u ->
  (∀ z, z ∈ tracked u -> is_Some (activeDebates st !! z)) ->
  (∃ e, persistence (GetDiscussionsAdmin (username sock)) = Rejected e)
  ∨ (∃ v, persistence (GetDiscussionsAdmin (username sock)) = Resolved v ∧ iterate v = None)
  ∨ (∃ discussions,
       persistence (GetDiscussionsAdmin (username sock)) = Resolved (VArr discussions)
       ∧ Exists (fun v => nullish v = true) discussions) ->
  ∃ e, settle persistence (getDebates sock (VFun cb) st) = (st, [], Some e).
Proof.
  intros Hu Hall Hbad.
  destruct (activeSummaries_registered st (tracked u) Hall) as [active Hactive].
  unfold getDebates. cbn [isFunction negb]. rewrite Hu, Hactive. cbn.
  destruct Hbad as [[e Hp] | [(v & Hp & Hv) | (discussions & Hp & Hnull)]]; rewrite Hp; cbn.
  - by eexists.
  - rewrite Hv. by eexists.
  - rewrite (discussionSummaries_unreadable _ Hnull). by eexists.
Qed.

Lemma activeSummaries_elem st ids active z d :
  activeSummaries st ids = Some active ->
  z ∈ ids -> activeDebates st !! z = Some d -> summary d ∈ active.
Proof.
  intros Hactive Hz Hd. apply activeSummaries_shape in Hactive.
  induction Hactive as [|z' v ids active (d' & Hd' & ->) _ IH].
  - by apply elem_of_nil in Hz.
  - apply elem_of_cons in Hz as [-> | Hz].
    + simplify_eq. by left.
    + right. by apply IH.
Qed.

Lemma elem_of_set_add_inv x y s : x ∈ set_add y s -> x = y ∨ x ∈ s.
Proof.
  unfold set_add. case_bool_decide; [by right |].
  intros [Hx | Hx%list_elem_of_singleton]%elem_of_app; [by right | by left].
Qed.

(** A debate that was just created is in the list of its creator: when the
    debates the moderator tracked before are registered and the persistence
    layer resolves to an array of discussion records, whatever they are,
    list-debates sent after create-debate replies with the summaries of the
    tracked debates, the summary of the new debate (its identifier, title
    and description, marked open) among them, followed by the entries of
    the records. *)
Theorem created_debate_is_listed sock payload cb cb' st t d u persistence persistence'
    discussions :
  get payload "title" = Some (VStr t) ->
  get payload "description" = Some (VStr d) ->
  (String.length t <= MAX_TITLE_LENGTH conf)%nat ->
  (String.length d <= MAX_DESCRIPTION_LENGTH conf)%nat ->
  users st !! username sock = Some u ->
  (∀ z, z ∈ tracked u -> is_Some (activeDebates st !! z)) ->
  persistence' (GetDiscussionsAdmin (username sock)) = Resolved (VArr discussions) ->
  Forall (fun v => nullish v = false) discussions ->
  let debate := construct t d sock (constructed st) in
  let st1 := (settle persistence (newDebate conf sock payload (VFun cb) st)).1.1 in
  ∃ active closed,
    settle persistence' (getDebates sock (VFun cb') st1)
    = (st1, [Reply (VFun cb') (VArr (active ++ closed))], None)
    ∧ summary debate ∈ active
    ∧ Forall2 (fun z v => ∃ d, activeDebates st1 !! z = Some d ∧ v = summary d)
        (set_add (debateID debate) (tracked u)) active
    ∧ Forall2 (fun v s => discussionSummary v = Some s) discussions closed.
Proof.
  intros Ht Hd Hlt Hld Hu Hall Hp Hreadable debate st1.
  assert (st1 = with_users <[username sock :=
                   {| socket := socket u; tracked := set_add (debateID debate) (tracked u) |}]>
                   {| activeDebates := <[debateID debate := debate]> (activeDebates st);
                      users := users st; constructed := S (constructed st) |}) as Hst1.
  { subst st1. by rewrite (newDebate_valid conf sock payload cb st t d u Ht Hd Hlt Hld Hu). }
  assert (users st1 !! username sock
          = Some {| socket := socket u; tracked := set_add (debateID debate) (tracked u) |})
    as Hu1.
  { rewrite Hst1. cbn. apply lookup_insert_eq. }
  assert (activeDebates st1 !! debateID debate = Some debate) as Hnew.
  { rewrite Hst1. cbn. apply lookup_insert_eq. }
  assert (∀ z, z ∈ set_add (debateID debate) (tracked u) -> is_Some (activeDebates st1 !! z))
    as Hall1.
  { intros z [-> | Hz]%elem_of_set_add_inv; [by rewrite Hnew |].
    rewrite Hst1. cbn. rewrite lookup_insert. case_decide; [done | by apply Hall]. }
  destruct (activeSummaries_registered st1 (set_add (debateID debate) (tracked u)) Hall1)
    as [active Hactive].
  destruct (discussionSummaries_readable discussions Hreadable) as (closed & Hclosed & Hshape).
  exists active, closed. split; [| split; [| split; [| done]]].
  - unfold getDebates. cbn [isFunction negb]. rewrite Hu1. cbn [tracked]. rewrite Hactive.
    cbn. rewrite Hp. cbn. by rewrite Hclosed.
  - apply (activeSummaries_elem st1 (set_add (debateID debate) (tracked u)) active
             (debateID debate)); [done | | done].
    apply elem_of_set_add.
  - by apply activeSummaries_shape.
Qed.

End Listing.

(** ** What the commands leave alone *)

Section Preserved.
Context {Debate : Type} `{!DebateEntity Debate}.
Variable conf : DebateConfig.
Implicit Types (st : Namespace Debate) (sock : Socket).

Ltac serve := repeat first [rewrite settle_Pending_state | progress cbn | case_match].

Ltac found :=
  match goal with
  | H : getActiveDebate _ _ = Some _ |- _ =>
      let z := fresh "z" in
      let Hz := fresh "Hz" in
      apply getActiveDebate_present in H as (z & -> & Hz)
  end.

(** No command creates a session, drops one, or changes the socket of
    one: whatever the command, its arguments and the answers of the awaited
    calls, every name has the same socket after the command as before (or
    none, as before).  Sessions are made and their sockets replaced by
    [initializeUsers] alone. *)
Theorem commands_keep_sessions c sock payload callback answers st name :
  socket <$> users (settle answers (handle conf c sock payload callback st)).1.1 !! name
  = socket <$> users st !! name.
Proof.
  destruct c; cbn [handle];
    unfold getDebates, getDebateQuestions, getDebateSuggestions, newDebate, closeDebate,
      newQuestion, banUser, approveQuestion, rejectQuestion, reading, logging, interpolating;
    serve; try done; try found; cbn in *.
  all: try (destruct (decide (name = username sock)) as [-> | Hne];
            [rewrite lookup_insert_eq | rewrite lookup_insert_ne by done]; simplify_eq; cbn).
  all: try done.
  all: match goal with H : users _ !! _ = Some _ |- _ => by rewrite H end.
Qed.

(** Only create-debate and close-debate change which debates are registered
    and which are tracked: every other command leaves the sessions as they
    are and the debate registry with the same identifiers. *)
Theorem other_commands_keep_identifiers c sock payload callback answers st :
  c ≠ NewDebate -> c ≠ CloseDebate ->
  let st' := (settle answers (handle conf c sock payload callback st)).1.1 in
  users st' = users st ∧ dom (activeDebates st') = dom (activeDebates st).
Proof.
  intros Hnew Hclose.
  destruct c; try done; cbn [handle];
    unfold getDebates, getDebateQuestions, getDebateSuggestions,
      newQuestion, banUser, approveQuestion, rejectQuestion, reading, logging, interpolating;
    serve; try done; found; cbn; (split; [done |]); by apply dom_insert_lookup_L.
Qed.

End Preserved.

(** ** The login middleware *)

Section MoreGate.
Context {Debate : Type} `{!DebateEntity Debate}.
Variable LOGIN_PASSWORD_INVALID : string.
Implicit Types (st : Namespace Debate) (sock : Socket).

Ltac verify := repeat first [progress cbn in * | case_match]; simplify_eq.

(** The middleware hands the connection on at most once: either it calls
    [next] exactly once, with or without an error, or one of the two
    look-ups of the database manager rejects and [next] is never called. *)
Theorem middleware_calls_next_once verifier sock :
  ∃ s t e,
    settle verifier (LoginMiddleware.middlewareFunction LOGIN_PASSWORD_INVALID sock) = (s, t, e)
    ∧ ((∃ err, t = [LoginMiddleware.Next err] ∧ e = None)
       ∨ (t = [] ∧ ∃ reason, e = Some (Rejection reason))).
Proof.
  unfold LoginMiddleware.middlewareFunction.
  verify; simplify_eq; eexists _, _, _; (split; [reflexivity |]); eauto.
Qed.

Lemma middleware_accepted verifier sock s e :
  settle verifier (LoginMiddleware.middlewareFunction LOGIN_PASSWORD_INVALID sock)
  = (s, [LoginMiddleware.Next None], e) ->
  ∃ password adminHash id,
    query_password sock = Some password ∧ password ≠ ""
    ∧ verifier (LoginMiddleware.GetAdminPassword (query_username sock)) = Resolved adminHash
    ∧ truthy adminHash = true
    ∧ verifier (LoginMiddleware.Compare password adminHash) = Resolved (VBool true)
    ∧ verifier (LoginMiddleware.GetAdminId (query_username sock)) = Resolved id
    ∧ s = {| sock_id := sock_id sock; query_username := query_username sock;
             query_password := None; username := query_username sock; userid := id |}
    ∧ e = None.
Proof.
  unfold LoginMiddleware.middlewareFunction.
  destruct (query_password sock) as [password|] eqn:Hp; cbn; [| by intros [=]].
  destruct (String.eqb password "") eqn:Hne; cbn; [by intros [=] |].
  apply String.eqb_neq in Hne.
  destruct (verifier (LoginMiddleware.GetAdminPassword _)) as [adminHash|] eqn:Hhash;
    cbn; [| by intros [=]].
  destruct (truthy adminHash) eqn:Htruthy; cbn; [| by intros [=]].
  destruct (verifier (LoginMiddleware.Compare _ _)) as [res|] eqn:Hcmp; cbn;
    [| by intros [=]].
  destruct (is_true res) eqn:Hres; cbn; [| by intros [=]].
  apply is_true_spec in Hres as ->.
  destruct (verifier (LoginMiddleware.GetAdminId _)) as [id|] eqn:Hid; cbn;
    [| by intros [=]].
  intros [= <- <-]. by exists password, adminHash, id.
Qed.

(** The middleware lets a connection through exactly when the handshake
    carries a secret, a stored hash is found for the name, the comparison
    answers exactly [true] and the identifier of the moderator is found;
    the socket then carries the name of the handshake and that identifier,
    and the secret is gone from the handshake. *)
Theorem middleware_accepts_iff verifier sock s e :
  settle verifier (LoginMiddleware.middlewareFunction LOGIN_PASSWORD_INVALID sock)
  = (s, [LoginMiddleware.Next None], e)
  ↔ ∃ password adminHash id,
      query_password sock = Some password ∧ password ≠ ""
      ∧ verifier (LoginMiddleware.GetAdminPassword (query_username sock)) = Resolved adminHash
      ∧ truthy adminHash = true
      ∧ verifier (LoginMiddleware.Compare password adminHash) = Resolved (VBool true)
      ∧ verifier (LoginMiddleware.GetAdminId (query_username sock)) = Resolved id
      ∧ s = {| sock_id := sock_id sock; query_username := query_username sock;
               query_password := None; username := query_username sock; userid := id |}
      ∧ e = None.
Proof.
  split; [apply middleware_accepted |].
  intros (password & adminHash & id & Hp & Hne & Hhash & Htruthy & Hcmp & Hid & -> & ->).
  apply String.eqb_neq in Hne. unfold LoginMiddleware.middlewareFunction.
  rewrite Hp, Hne. cbn. rewrite Hhash, Htruthy. cbn. rewrite Hcmp. cbn. by rewrite Hid.
Qed.

(** Nothing is attached without a successful verification: a connection
    attempt either leaves the namespace as it was and attaches nothing, or
    the secret was present, a stored hash was found, the comparison
    answered exactly [true] and the identifier was found, and the socket is
    served by [startSocketHandling].  A look-up that rejects is among the
    first. *)
Theorem connection_served_only_if_accepted verifier sock st :
  Server.connect LOGIN_PASSWORD_INVALID verifier sock st = (st, [])
  ∨ ∃ password adminHash id,
      query_password sock = Some password ∧ password ≠ ""
      ∧ verifier (LoginMiddleware.GetAdminPassword (query_username sock)) = Resolved adminHash
      ∧ truthy adminHash = true
      ∧ verifier (LoginMiddleware.Compare password adminHash) = Resolved (VBool true)
      ∧ verifier (LoginMiddleware.GetAdminId (query_username sock)) = Resolved id
      ∧ Server.connect LOGIN_PASSWORD_INVALID verifier sock st
        = startSocketHandling
            {| sock_id := sock_id sock; query_username := query_username sock;
               query_password := None; username := query_username sock; userid := id |} st.
Proof.
  unfold Server.connect.
  destruct (settle verifier (LoginMiddleware.middlewareFunction LOGIN_PASSWORD_INVALID sock))
    as [[s t] e] eqn:Hsettle.
  destruct t as [|[[err|]] [|]]; try (by left).
  destruct e as [err|]; [by left |].
  destruct (middleware_accepted _ _ _ _ Hsettle)
    as (password & adminHash & id & Hp & Hne & Hhash & Htruthy & Hcmp & Hid & -> & _).
  right. by exists password, adminHash, id.
Qed.

(** The secret does not outlive the middleware: however the verification
    ends, the handshake of the socket carries no secret afterwards; and
    when it carried one, the name of the handshake is attached to the
    socket, also when the connection is refused. *)
Theorem middleware_clears_secret verifier sock :
  let s := (settle verifier
              (LoginMiddleware.middlewareFunction LOGIN_PASSWORD_INVALID sock)).1.1 in
  no_secret s = true
  ∧ (no_secret sock = false -> query_password s = None ∧ username s = query_username sock)
  ∧ (no_secret sock = true -> s = sock).
Proof.
  unfold LoginMiddleware.middlewareFunction, no_secret.
  destruct (query_password sock) as [password|] eqn:Hp; cbn; [| by rewrite Hp].
  destruct (String.eqb password "") eqn:Hempty; cbn; [by rewrite Hp, Hempty |].
  verify; cbn; done.
Qed.

(** An authenticated connection is served: the session of the name holds
    the socket as the middleware left it, with the tracked set the name had
    before (empty for a new name), the debate registry is as it was, and
    the nine handlers are attached to the socket, in the order of
    [startSocketHandling]. *)
Theorem authenticated_connection_is_served verifier sock st password adminHash id :
  query_password sock = Some password -> password ≠ "" ->
  verifier (LoginMiddleware.GetAdminPassword (query_username sock)) = Resolved adminHash ->
  truthy adminHash = true ->
  verifier (LoginMiddleware.Compare password adminHash) = Resolved (VBool true) ->
  verifier (LoginMiddleware.GetAdminId (query_username sock)) = Resolved id ->
  let admitted :=
    {| sock_id := sock_id sock; query_username := query_username sock;
       query_password := None; username := query_username sock; userid := id |} in
  let served := Server.connect LOGIN_PASSWORD_INVALID verifier sock st in
  users served.1 !! query_username sock
  = Some {| socket := admitted;
            tracked := from_option tracked [] (users st !! query_username sock) |}
  ∧ (∀ name, name ≠ query_username sock -> users served.1 !! name = users st !! name)
  ∧ activeDebates served.1 = activeDebates st
  ∧ served.2
    = On (sock_id sock) <$>
        ["getDebates"; "getDebateQuestions"; "getDebateSuggestions"; "newDebate";
         "closeDebate"; "newQuestion"; "banUser"; "approveQuestion"; "rejectQuestion"].
Proof.
  intros Hp Hne Hhash Htruthy Hcmp Hid admitted served. subst served.
  rewrite (connect_authenticated LOGIN_PASSWORD_INVALID verifier sock st password adminHash id)
    by done.
  fold admitted. cbn [startSocketHandling fst snd].
  split; [apply (initializeUsers_entry admitted st) |].
  split; [apply (initializeUsers_other admitted st) |].
  split; [apply initializeUsers_activeDebates | done].
Qed.

End MoreGate.

(** ** Awaits and replies *)

Section Awaiting.
Context {Debate : Type} `{!DebateEntity Debate}.
Variable conf : DebateConfig.
Implicit Types (st : Namespace Debate) (sock : Socket).

Ltac serve := repeat first [rewrite settle_Pending_state | progress cbn | case_match].

(** A handler writes to the registries before its await only: it awaits at
    most one call, and when it is resumed, in whatever state the requests
    served in between have left, it replies or throws and leaves that state
    as it found it. *)
Theorem resumed_handlers_change_nothing c sock payload callback st :
  match handle conf c sock payload callback st with
  | Pending _ _ _ k =>
      ∀ a st', ∃ t, k a st' = Done st' t ∨ ∃ e, k a st' = Thrown st' t e
  | _ => True
  end.
Proof.
  destruct c; cbn [handle];
    unfold getDebates, getDebateQuestions, getDebateSuggestions, newDebate, closeDebate,
      newQuestion, banUser, approveQuestion, rejectQuestion, reading, logging, interpolating;
    repeat first [progress cbn | case_match]; try done;
    intros a st'; simplify_eq; repeat first [progress cbn | case_match]; eauto.
Qed.

(** A request served to its end without a throw is answered exactly once,
    to its own reply function.  A handler that throws has sent no reply,
    with one exception: close-debate for an identifier that is not
    registered and has no string has replied [false] before it throws.  So
    no request is answered twice.  A request without a reply function is
    not answered and leaves no trace. *)
Theorem request_is_answered_at_most_once c sock payload callback answers st :
  let '(_, t, e) := settle answers (handle conf c sock payload callback st) in
  match e with
  | Some _ =>
      Trace.replies t = []
      ∨ (c = CloseDebate ∧ printable payload = false
         ∧ Trace.replies t = [(callback, VBool false)])
  | None =>
      if isFunction callback then ∃ arg, Trace.replies t = [(callback, arg)] else t = []
  end.
Proof.
  destruct (isFunction callback) eqn:Hcb.
  - destruct c; cbn [handle];
      unfold getDebates, getDebateQuestions, getDebateSuggestions, newDebate, closeDebate,
        newQuestion, banUser, approveQuestion, rejectQuestion, reading, logging, interpolating;
      rewrite Hcb; repeat first [progress cbn in * | case_match]; simplify_eq; cbn; eauto.
  - destruct c; cbn [handle];
      unfold getDebates, getDebateQuestions, getDebateSuggestions, newDebate, closeDebate,
        newQuestion, banUser, approveQuestion, rejectQuestion;
      by rewrite Hcb.
Qed.

End Awaiting.

(** ** The further properties at concrete requests *)

Section MoreInstances.
Import Example Sample.

(** create-debate with an object where the reply function should be. *)
Lemma not_callable_reply_aborts_witness :
  handle conf NewDebate Run.alice VNull (VObj []) created = Done created [].
Proof.
  apply (not_callable_reply_aborts conf NewDebate Run.alice VNull (VObj []) created).
  reflexivity.
Defined.

(** create-debate with a number for a title. *)
Lemma invalid_arguments_get_sentinel_witness :
  handle conf NewDebate Run.alice (VObj [("title", VInt 5); ("description", VStr "D")])
    (VFun 3) created
  = Done created [Reply (VFun 3) (VInt (-1))].
Proof.
  apply (invalid_arguments_get_sentinel conf NewDebate Run.alice
           (VObj [("title", VInt 5); ("description", VStr "D")]) 3 created (VInt (-1)));
    reflexivity.
Defined.

(** ban-user without a payload. *)
Lemma nullish_payload_throws_witness :
  handle conf BanUser Run.alice VUndefined (VFun 3) created
  = Thrown created [] (TypeError "Cannot read properties of undefined or null").
Proof.
  apply (nullish_payload_throws conf BanUser Run.alice VUndefined 3 created); reflexivity.
Defined.

(** The plain debate has no suggestion [4] to approve or to reject. *)
Lemma suggestion_decision_reply_witness :
  approveQuestion Run.bob (VObj [("suggestionId", VInt 4); ("debateId", VInt 0)]) (VFun 3)
    created
  = Done (with_activeDebates <[0%Z := construct "T" "D" Run.alice 0]> created)
      [Reply (VFun 3) (VBool false)]
  ∧ rejectQuestion Run.bob (VObj [("suggestionId", VInt 4); ("debateId", VInt 0)]) (VFun 3)
      created
    = Done (with_activeDebates <[0%Z := construct "T" "D" Run.alice 0]> created)
        [Reply (VFun 3) (VBool false)].
Proof.
  refine (suggestion_decision_reply Run.bob
            (VObj [("suggestionId", VInt 4); ("debateId", VInt 0)]) 4 0
            (construct "T" "D" Run.alice 0) 3 created _ _ _).
  - reflexivity.
  - reflexivity.
  - vm_compute; reflexivity.
Defined.

(** A question with two answers and the string "true" for a flag. *)
Lemma newQuestion_closed_keeps_answers_witness :
  ∃ question k,
    newQuestion conf Run.alice
      (VObj [("debateId", VInt 0); ("title", VStr "Q");
             ("answers", VArr [VStr "a"; VStr "b"]); ("isOpenQuestion", VStr "true")])
      (VFun 3) created
    = Pending
        (with_activeDebates
           <[0%Z := sendNewQuestion (construct "T" "D" Run.alice 0) question]> created) []
        (SendNewQuestion 0%Z question) k
    ∧ q_title question = VStr "Q"
    ∧ q_answers question = VArr [VStr "a"; VStr "b"]
    ∧ q_isOpenQuestion question = VBool false
    ∧ (∀ v st', k (Resolved v) st' = Done st' [Reply (VFun 3) (q_id question)])
    ∧ (∀ e st', k (Rejected e) st' = Thrown st' [] (Rejection e)).
Proof.
  refine (newQuestion_closed_keeps_answers conf Run.alice
            (VObj [("debateId", VInt 0); ("title", VStr "Q");
                   ("answers", VArr [VStr "a"; VStr "b"]); ("isOpenQuestion", VStr "true")])
            3 created 0 (construct "T" "D" Run.alice 0) "Q" [VStr "a"; VStr "b"] (VStr "true")
            _ _ _ _ _ _ _ _).
  - reflexivity.
  - reflexivity.
  - reflexivity.
  - reflexivity.
  - reflexivity.
  - reflexivity.
  - vm_compute; lia.
  - vm_compute; reflexivity.
Defined.

(** alice closes her debate while the persistence layer is down. *)
Lemma closeDebate_rejected_persistence_witness :
  ∃ st1,
    settle down (closeDebate Run.alice (VInt 0) (VFun 3) created)
    = (st1, [], Some (Rejection (VStr "connection lost")))
    ∧ activeDebates st1 !! 0%Z = None
    ∧ tracked <$> users st1 !! Some "alice" = Some [].
Proof.
  refine (closeDebate_rejected_persistence Run.alice 0 (construct "T" "D" Run.alice 0)
            {| socket := Run.alice; tracked := [0%Z] |} 3 created down
            (VStr "connection lost") _ _ _).
  - vm_compute; reflexivity.
  - vm_compute; reflexivity.
  - reflexivity.
Defined.

(** bob opens a second debate and closes it again. *)
Lemma create_then_close_restores_witness :
  activeDebates second_closed = activeDebates created
  ∧ users second_closed = users created.
Proof.
  refine (create_then_close_restores conf Run.bob
            (VObj [("title", VStr "U"); ("description", VStr "V")]) 3 4 created "U" "V"
            {| socket := Run.bob; tracked := [] |} Run.saved Run.saved _ _ _ _ _ _ _).
  - reflexivity.
  - reflexivity.
  - vm_compute; lia.
  - vm_compute; lia.
  - vm_compute; reflexivity.
  - vm_compute; reflexivity.
  - apply not_elem_of_nil.
Defined.

(** After alice has closed debate [0], bob asks for it. *)
Lemma closed_debate_is_unknown_witness :
  closeDebate Run.bob (VInt 0) (VFun 4) closed_by_owner
  = Done closed_by_owner [Reply (VFun 4) (VBool false)]
  ∧ getDebateQuestions Run.bob (VInt 0) (VFun 4) closed_by_owner
    = Done closed_by_owner [Reply (VFun 4) (VInt (-1))]
  ∧ getDebateSuggestions Run.bob (VInt 0) (VFun 4) closed_by_owner
    = Done closed_by_owner [Reply (VFun 4) (VInt (-1))].
Proof.
  refine (closed_debate_is_unknown Run.alice Run.bob 0 (construct "T" "D" Run.alice 0)
            {| socket := Run.alice; tracked := [0%Z] |} 3 4 created Run.saved _ _).
  - vm_compute; reflexivity.
  - vm_compute; reflexivity.
Defined.

(** alice lists her debates; the archive holds two discussions. *)
Lemma getDebates_lists_tracked_then_persisted_witness :
  ∃ active closed,
    settle archive (getDebates Run.alice (VFun 3) created)
    = (created, [Reply (VFun 3) (VArr (active ++ closed))], None)
    ∧ Forall2 (fun z v => ∃ d, activeDebates created !! z = Some d ∧ v = summary d)
        [0%Z] active
    ∧ Forall2 (fun v s => discussionSummary v = Some s)
        [VObj [("_id", VInt 10); ("title", VStr "A"); ("description", VStr "a")];
         VObj [("_id", VInt 11); ("title", VStr "B"); ("description", VStr "b");
               ("finishTime", VStr "2020-05-01")]] closed
    ∧ length (active ++ closed) = 3%nat.
Proof.
  refine (getDebates_lists_tracked_then_persisted Run.alice 3 created
            {| socket := Run.alice; tracked := [0%Z] |} archive
            [VObj [("_id", VInt 10); ("title", VStr "A"); ("description", VStr "a")];
             VObj [("_id", VInt 11); ("title", VStr "B"); ("description", VStr "b");
                   ("finishTime", VStr "2020-05-01")]] _ _ _ _).
  - vm_compute; reflexivity.
  - intros z Hz. apply list_elem_of_singleton in Hz. rewrite Hz. vm_compute. eexists. reflexivity.
  - reflexivity.
  - repeat constructor.
Defined.

(** alice lists her debates while the persistence layer is down. *)
Lemma getDebates_unreadable_discussions_witness :
  ∃ e, settle down (getDebates Run.alice (VFun 3) created) = (created, [], Some e).
Proof.
  refine (getDebates_unreadable_discussions Run.alice 3 created
            {| socket := Run.alice; tracked := [0%Z] |} down _ _ _).
  - vm_compute; reflexivity.
  - intros z Hz. apply list_elem_of_singleton in Hz. rewrite Hz. vm_compute. eexists. reflexivity.
  - left. exists (VStr "connection lost"). reflexivity.
Defined.

(** bob lists his debates after he has opened the second one; the archive
    holds two discussions. *)
Lemma created_debate_is_listed_witness :
  ∃ active closed,
    settle archive (getDebates Run.bob (VFun 4) second)
    = (second, [Reply (VFun 4) (VArr (active ++ closed))], None)
    ∧ summary (construct "U" "V" Run.bob 1) ∈ active
    ∧ Forall2 (fun z v => ∃ d, activeDebates second !! z = Some d ∧ v = summary d)
        [1%Z] active
    ∧ Forall2 (fun v s => discussionSummary v = Some s)
        [VObj [("_id", VInt 10); ("title", VStr "A"); ("description", VStr "a")];
         VObj [("_id", VInt 11); ("title", VStr "B"); ("description", VStr "b");
               ("finishTime", VStr "2020-05-01")]] closed.
Proof.
  refine (created_debate_is_listed conf Run.bob
            (VObj [("title", VStr "U"); ("description", VStr "V")]) 3 4 created "U" "V"
            {| socket := Run.bob; tracked := [] |} Run.saved archive
            [VObj [("_id", VInt 10); ("title", VStr "A"); ("description", VStr "a")];
             VObj [("_id", VInt 11); ("title", VStr "B"); ("description", VStr "b");
                   ("finishTime", VStr "2020-05-01")]] _ _ _ _ _ _ _ _).
  - reflexivity.
  - reflexivity.
  - vm_compute; lia.
  - vm_compute; lia.
  - vm_compute; reflexivity.
  - intros z Hz. apply elem_of_nil in Hz. destruct Hz.
  - reflexivity.
  - repeat constructor.
Defined.

(** A new question leaves the sessions and the registered identifiers. *)
Lemma other_commands_keep_identifiers_witness :
  users (settle Run.saved
           (handle conf NewQuestion Run.alice
              (VObj [("debateId", VInt 0); ("title", VStr "Q"); ("answers", VArr [])])
              (VFun 3) created)).1.1
  = users created
  ∧ dom (activeDebates
           (settle Run.saved
              (handle conf NewQuestion Run.alice
                 (VObj [("debateId", VInt 0); ("title", VStr "Q"); ("answers", VArr [])])
                 (VFun 3) created)).1.1)
    = dom (activeDebates created).
Proof.
  refine (other_commands_keep_identifiers conf NewQuestion Run.alice
            (VObj [("debateId", VInt 0); ("title", VStr "Q"); ("answers", VArr [])])
            (VFun 3) Run.saved created _ _).
  - discriminate.
  - discriminate.
Defined.

(** alice closes her own debate. *)
Lemma closeDebate_untracks_caller_witness :
  ∃ st1 k u1,
    closeDebate Run.alice (VInt 0) (VFun 3) created
    = Pending st1 [] (SaveEndDiscussion (VInt 0)) k
    ∧ activeDebates st1 !! 0%Z = None
    ∧ users st1 !! Some "alice" = Some u1
    ∧ 0%Z ∉ tracked u1.
Proof.
  refine (closeDebate_untracks_caller Run.alice 0 3 created (construct "T" "D" Run.alice 0)
            {| socket := Run.alice; tracked := [0%Z] |} _ _ _).
  - vm_compute; reflexivity.
  - reflexivity.
  - vm_compute; reflexivity.
Defined.

(** The example state is reached by three requests. *)
Lemma reachable_registered_are_tracked_witness :
  Run.keyed created
  ∧ ∀ z, is_Some (activeDebates created !! z) -> Run.tracked_somewhere created z.
Proof.
  refine (reachable_registered_are_tracked conf created _).
  apply (Run.reachable_command conf NewDebate Run.alice
           (VObj [("title", VStr "T"); ("description", VStr "D")]) (VFun 1) Run.saved).
  - apply (Run.reachable_connection conf Run.bob).
    apply (Run.reachable_connection conf Run.alice).
    apply Run.reachable_initial.
  - vm_compute. eexists. reflexivity.
Defined.

(** The member is let through. *)
Lemma middleware_accepts_iff_witness :
  settle accepting (LoginMiddleware.middlewareFunction "Invalid password" member)
  = ({| sock_id := "socket-m"; query_username := Some "carol"; query_password := None;
        username := Some "carol"; userid := VInt 3 |},
     [LoginMiddleware.Next None], None).
Proof.
  apply (proj2 (middleware_accepts_iff "Invalid password" accepting member _ None)).
  exists "secret", (VStr "$2b$10$hash"), (VInt 3).
  repeat split; try reflexivity. discriminate.
Defined.

(** The intruder is refused and his guess is gone from the handshake. *)
Lemma middleware_clears_secret_witness :
  query_password
    (settle verifier (LoginMiddleware.middlewareFunction "Invalid password" intruder)).1.1
  = None
  ∧ username
      (settle verifier (LoginMiddleware.middlewareFunction "Invalid password" intruder)).1.1
    = Some "alice".
Proof.
  apply (proj1 (proj2 (middleware_clears_secret "Invalid password" verifier intruder))).
  reflexivity.
Defined.

(** The member gets a session and the nine handlers. *)
Lemma authenticated_connection_is_served_witness :
  users (Server.connect "Invalid password" accepting member created).1 !! Some "carol"
  = Some {| socket :=
              {| sock_id := "socket-m"; query_username := Some "carol";
                 query_password := None; username := Some "carol"; userid := VInt 3 |};
            tracked := [] |}
  ∧ (∀ name, name ≠ Some "carol" ->
       users (Server.connect "Invalid password" accepting member created).1 !! name
       = users created !! name)
  ∧ activeDebates (Server.connect "Invalid password" accepting member created).1
    = activeDebates created
  ∧ (Server.connect "Invalid password" accepting member created).2
    = On "socket-m" <$>
        ["getDebates"; "getDebateQuestions"; "getDebateSuggestions"; "newDebate";
         "closeDebate"; "newQuestion"; "banUser"; "approveQuestion"; "rejectQuestion"].
Proof.
  refine (authenticated_connection_is_served "Invalid password" accepting member created
            "secret" (VStr "$2b$10$hash") (VInt 3) _ _ _ _ _ _).
  - reflexivity.
  - discriminate.
  - reflexivity.
  - reflexivity.
  - reflexivity.
  - reflexivity.
Defined.

End MoreInstances.
